(** * telman: the SNMP query engine of the Telegram relay bot

    A shallow embedding of [src/main.py]: the identifier validator
    ([SNMPManager.validate_oid]), the single-value fetch
    ([SNMPManager.get_snmp_value]), the bounded tree walk
    ([SNMPManager.walk_snmp_tree]), the endpoint replacement
    ([TelegramBot.update_snmp_config]), the command handlers
    ([CommandHandlers.snmp_config], [snmp_get], [snmp_walk], [snmp_status]),
    the configuration read at start-up ([Config], [main]) and the bot's
    start and stop ([TelegramBot.start_bot], [stop_bot], [run]).

    Conventions.
    - A Python [str] is a [string]; every character stands for the code
      point of the same number (0..255).  On that range [\d] is exactly
      ['0'..'9'] and the white space accepted by [int()] is 9..13, 32, 133
      and 160.  Strings with a code point above 255 are outside the
      development: there [\d] and [int()] also take the decimal digits of
      other scripts.
    - A result dictionary is a [gmap string PyVal], so that the presence of
      a key is observable.
    - The pysnmp stack is an oracle ([Stack]): it answers a request either
      by raising while the engine, transport and command are built, or with
      the (finite) sequence of items the awaited command yields, which may
      itself end by raising.  A [Stack] raises exceptions, objects of a
      class deriving from [Exception]; a [Full.Stack] may also raise what
      derives from [BaseException] only, which no [except] clause of the
      program but one ([except KeyboardInterrupt] in [run]) catches.
    - The logger calls are left out: they never change a result. *)

From stdpp Require Import gmap strings list.
From Stdlib Require Import ZArith Ascii String Lia.

Open Scope string_scope.
Open Scope list_scope.

(* ================================================================== *)
(** * Part I: definitions *)
(* ================================================================== *)

(** ** Regular expressions, as far as [validate_oid] uses them *)

Module Re.

(** Pattern syntax.  [Void] never matches; it only appears in derivatives. *)
Inductive regex :=
| Void
| Eps
| Bol                          (* ^ *)
| Eol                          (* $ *)
| Chars (p : ascii → bool)     (* a character class *)
| Seq (r1 r2 : regex)
| Alt (r1 r2 : regex)
| Star (r : regex).

(** [\d] on the code points 0..255: the ten digits ['0'..'9']. *)
Definition is_digit (c : ascii) : bool := (("0" <=? c) && (c <=? "9"))%char.

Definition Lit (c : ascii) : regex := Chars (Ascii.eqb c).   (* \. and the like *)
Definition Digit : regex := Chars is_digit.                  (* \d *)
Definition Opt (r : regex) : regex := Alt r Eps.             (* r? *)
Definition Plus (r : regex) : regex := Seq r (Star r).       (* r+ *)
Definition Grp (r : regex) : regex := r.                     (* ( r ) *)

Definition newline : ascii := ascii_of_nat 10.

(** [$] without MULTILINE: at the end of the subject, or just before a
    newline that is the subject's last character. *)
Definition at_end (rest : list ascii) : bool :=
  match rest with
  | [] => true
  | [c] => Ascii.eqb c newline
  | _ => false
  end.

Definition null (w : list ascii) : bool :=
  match w with [] => true | _ => false end.

(** Does [r] match the empty word at a position where [b] tells whether it
    is the start of the subject and [rest] is what remains of the subject? *)
Fixpoint nullable (b : bool) (rest : list ascii) (r : regex) : bool :=
  match r with
  | Void => false
  | Eps => true
  | Bol => b
  | Eol => at_end rest
  | Chars _ => false
  | Seq r1 r2 => nullable b rest r1 && nullable b rest r2
  | Alt r1 r2 => nullable b rest r1 || nullable b rest r2
  | Star _ => true
  end.

(** What is left of [r] once [c], the head of [rest], has been consumed. *)
Fixpoint deriv (b : bool) (rest : list ascii) (c : ascii) (r : regex) : regex :=
  match r with
  | Void | Eps | Bol | Eol => Void
  | Chars p => if p c then Eps else Void
  | Seq r1 r2 =>
      Alt (Seq (deriv b rest c r1) r2)
          (if nullable b rest r1 then deriv b rest c r2 else Void)
  | Alt r1 r2 => Alt (deriv b rest c r1) (deriv b rest c r2)
  | Star r1 => Seq (deriv b rest c r1) (Star r1)
  end.

(** Is there a match of [r] that starts here and ends somewhere in [s]? *)
Fixpoint match_from (b : bool) (r : regex) (s : list ascii) : bool :=
  nullable b s r ||
  match s with
  | [] => false
  | c :: s' => match_from false (deriv b s c r) s'
  end.

(** [bool(re.match(r, s))]: a match anchored at position 0. *)
Definition re_match (r : regex) (s : string) : bool :=
  match_from true r (list_ascii_of_string s).

(** Declarative meaning of a pattern: [Matches r b w k] says that [r]
    matches the word [w] at a position flagged [b] (start of subject or
    not), leaving [k] of the subject unread. *)
Inductive Matches : regex → bool → list ascii → list ascii → Prop :=
| MEps b k : Matches Eps b [] k
| MBol k : Matches Bol true [] k
| MEol b k : at_end k = true → Matches Eol b [] k
| MChars p b c k : p c = true → Matches (Chars p) b [c] k
| MSeq r1 r2 b w1 w2 k :
    Matches r1 b w1 (w2 ++ k) → Matches r2 (b && null w1) w2 k →
    Matches (Seq r1 r2) b (w1 ++ w2) k
| MAltL r1 r2 b w k : Matches r1 b w k → Matches (Alt r1 r2) b w k
| MAltR r1 r2 b w k : Matches r2 b w k → Matches (Alt r1 r2) b w k
| MStar0 r b k : Matches (Star r) b [] k
| MStarS r b w1 w2 k :
    Matches r b w1 (w2 ++ k) → Matches (Star r) (b && null w1) w2 k →
    Matches (Star r) b (w1 ++ w2) k.

End Re.

(** ** Python values, exceptions and the small effect monad *)

(** One element of the [results] list of a walk: the dictionary literal
    [{"oid": ..., "value": ...}] of lines 189-192. *)
Record Entry := { entry_oid : string; entry_value : string }.

Inductive PyVal :=
| VBool (b : bool)
| VStr (s : string)
| VInt (z : Z)
| VList (l : list Entry).

Abbreviation dict := (gmap string PyVal).

(** The exception classes the handlers tell apart.  All of them derive from
    [Exception]; [OtherException] is any other subclass of it.  What derives
    from [BaseException] without deriving from [Exception] is not an [Exn]:
    it is a [Full.Thrown], and the engine is defined again in [Full] for a
    stack that raises it. *)
Inductive ExnClass :=
| AttributeError
| TimeoutError
| IndexError
| ValueError
| OtherException.

(** An exception object: its class and [str(e)]. *)
Record Exn := { exn_class : ExnClass; exn_str : string }.

Inductive Outcome (A : Type) :=
| Returned (a : A)
| Raised (e : Exn).
Arguments Returned {A} a.
Arguments Raised {A} e.

Inductive Command := GetCmd | NextCmd.

(** What a call hands to the protocol stack: the transport target
    [(host, port)], the community and the identifier. *)
Record Request := {
  req_command : Command;
  req_host : string;
  req_port : Z;
  req_community : string;
  req_oid : string
}.

(** A computation: how it ends and the requests it handed to the stack. *)
Record M (A : Type) := Run { outcome : Outcome A; requests : list Request }.
Arguments Run {A} outcome requests.
Arguments outcome {A} m.
Arguments requests {A} m.

#[export] Instance M_ret : MRet M := λ A a, Run (Returned a) [].

#[export] Instance M_bind : MBind M := λ A B f m,
  match outcome m with
  | Returned a => Run (outcome (f a)) (requests m ++ requests (f a))
  | Raised e => Run (Raised e) (requests m)
  end.

Definition raise {A : Type} (e : Exn) : M A := Run (Raised e) [].

(** [try: body except ...]: [handlers e] is the body of the first clause
    that catches [e], or [None] when no clause does. *)
Definition try_except {A : Type} (body : M A) (handlers : Exn → option (M A)) : M A :=
  match outcome body with
  | Returned a => body
  | Raised e =>
      match handlers e with
      | Some h => Run (outcome h) (requests body ++ requests h)
      | None => body
      end
  end.

(** ** The protocol stack *)

(** A Python object as far as the engine looks at it: [str(x)], [bool(x)]
    and [type(x).__name__]. *)
Record PyObj := { obj_str : string; obj_truthy : bool; obj_type : string }.

(** [errorStatus]: an integer that is true when non-zero, with its
    [prettyPrint()]. *)
Record ErrorStatus := { status_value : Z; status_pretty : string }.

(** One item of the awaited command: the tuple
    [(errorIndication, errorStatus, errorIndex, varBinds)].
    [errorIndication] is [None] or an object that is true, given by its
    [str()]. *)
Record Response := {
  errorIndication : option string;
  errorStatus : ErrorStatus;
  errorIndex : Z;
  varBinds : list (PyObj * PyObj)
}.

(** The asynchronous iterator: each step yields an item, stops, or raises. *)
Inductive Stream :=
| Exhausted
| Yield (r : Response) (rest : Stream)
| Raise (e : Exn).

(** The stack's answer to a request: an exception while [SnmpEngine()],
    [UdpTransportTarget.create] or the command is built (lines 73-83,
    outside the inner [try]), or the stream the awaited command gives
    (inside it; an exception of the [await] itself is a stream that raises
    at once). *)
Inductive Attempt :=
| SetupFails (e : Exn)
| Responds (s : Stream).

Definition Stack : Type := Request → Attempt.

Definition send (stack : Stack) (rq : Request) : M Stream :=
  match stack rq with
  | SetupFails e => Run (Raised e) [rq]
  | Responds s => Run (Returned s) [rq]
  end.

(** [l[i]] on a Python list: negative indices count from the end, anything
    else out of range raises [IndexError]. *)
Definition py_index {A : Type} (l : list A) (i : Z) : Outcome A :=
  let n := Z.of_nat (List.length l) in
  let j := (if i <? 0 then i + n else i)%Z in
  match (if (0 <=? j)%Z && (j <? n)%Z then l !! Z.to_nat j else None) with
  | Some x => Returned x
  | None => Raised {| exn_class := IndexError; exn_str := "list index out of range" |}
  end.

(** ** SNMPManager *)

Record SNMPManager := { target_host : string; community : string; port : Z }.

(** [SNMPManager(...)] with the defaults of line 48. *)
Definition SNMPManager_init (target_host : option string) (community : option string)
    (port : option Z) : SNMPManager :=
  {| target_host := default "192.168.137.130" target_host;
     community := default "public" community;
     port := default 161%Z port |}.

(** The pattern of line 55, [^\.?(\d+\.)*\d+$]. *)
Definition pattern : Re.regex :=
  Re.Seq Re.Bol
    (Re.Seq (Re.Opt (Re.Lit "."))
       (Re.Seq (Re.Star (Re.Grp (Re.Seq (Re.Plus Re.Digit) (Re.Lit "."))))
          (Re.Seq (Re.Plus Re.Digit) Re.Eol))).

Definition validate_oid (oid : string) : bool := Re.re_match pattern oid.

(** Lines 68-70. *)
Definition normalize_oid (oid : string) : string :=
  if String.prefix "." oid then oid else "." +:+ oid.

Definition failure (msg : string) : dict :=
  {[ "success" := VBool false; "error" := VStr msg ]}.

(** The expression [errorIndex and varBinds[int(errorIndex) - 1][0] or '?']
    of line 99, already formatted. *)
Definition error_position (r : Response) : Outcome string :=
  if (errorIndex r =? 0)%Z then Returned "?"
  else
    match py_index (varBinds r) (errorIndex r - 1) with
    | Raised e => Raised e
    | Returned vb => Returned (if obj_truthy (fst vb) then obj_str (fst vb) else "?")
    end.

(** The [async for] of lines 88-111.  [Some d]: the loop returned [d];
    [None]: the iterator ran out. *)
Fixpoint get_responses (s : Stream) : M (option dict) :=
  match s with
  | Exhausted => mret None
  | Raise e => raise e
  | Yield r rest =>
      match errorIndication r with
      | Some indication =>
          mret (Some (failure ("SNMP Error: " +:+ indication +:+
            ". Check if the target device is reachable and SNMP is enabled.")))
      | None =>
          if negb (status_value (errorStatus r) =? 0)%Z then
            match error_position r with
            | Raised e => raise e
            | Returned at_ =>
                mret (Some (failure ("SNMP Error: " +:+ status_pretty (errorStatus r) +:+
                                     " at " +:+ at_)))
            end
          else
            match varBinds r with
            | varBind :: _ =>
                mret (Some ({[ "success" := VBool true;
                               "oid" := VStr (obj_str (fst varBind));
                               "value" := VStr (obj_str (snd varBind));
                               "type" := VStr (obj_type (snd varBind)) ]} : dict))
            | [] => get_responses rest
            end
      end
  end.

(** The clauses of lines 112-117 and 200-205. *)
Definition except_AttributeError {A : Type} (ret : dict → A) (ae : Exn) : option (M A) :=
  match exn_class ae with
  | AttributeError =>
      Some (mret (ret (failure ("SNMP AttributeError: " +:+ exn_str ae +:+
                                ". Ensure the correct pysnmp version is installed."))))
  | _ => None
  end.

(** The clauses of lines 125-136 and 214-225: [except TimeoutError], then
    [except Exception], which catches every [Exn]. *)
Definition except_outer (timed_out : string) (e : Exn) : option (M dict) :=
  match exn_class e with
  | TimeoutError => Some (mret (failure timed_out))
  | _ => Some (mret (failure ("Connection error: " +:+ exn_str e +:+
                              ". Ensure the SNMP target is configured correctly.")))
  end.

Definition get_snmp_value (self : SNMPManager) (stack : Stack) (oid : string) : M dict :=
  try_except
    (if negb (validate_oid oid) then
       mret (failure "Invalid OID format. OID should contain only numbers and dots (e.g., 1.3.6.1.2.1.1.1.0)")
     else
       let oid := normalize_oid oid in
       result ← send stack {| req_command := GetCmd;
                              req_host := target_host self;
                              req_port := port self;
                              req_community := community self;
                              req_oid := oid |};
       returned ← try_except (get_responses result) (except_AttributeError Some);
       match returned with
       | Some d => mret d
       | None =>
           mret (failure "No data received from SNMP query. Verify the OID and target configuration.")
       end)
    (except_outer "SNMP request timed out. Check if the target device is reachable or increase timeout.").

(** The inner [for] of lines 185-196, with its [break]. *)
Fixpoint walk_varBinds (vbs : list (PyObj * PyObj)) (results : list Entry) (count : Z)
    (max_results : Z) : list Entry * Z :=
  match vbs with
  | [] => (results, count)
  | varBind :: vbs' =>
      let results := results ++ [{| entry_oid := obj_str (fst varBind);
                                    entry_value := obj_str (snd varBind) |}] in
      let count := (count + 1)%Z in
      if (count >=? max_results)%Z then (results, count)
      else walk_varBinds vbs' results count max_results
  end.

(** The [async for] of lines 171-199.  [inl d]: the loop returned [d];
    [inr (results, count)]: it ended, by exhaustion or by [break]. *)
Fixpoint walk_responses (s : Stream) (results : list Entry) (count : Z)
    (max_results : Z) : M (dict + list Entry * Z) :=
  match s with
  | Exhausted => mret (inr (results, count))
  | Raise e => raise e
  | Yield r rest =>
      match errorIndication r with
      | Some indication =>
          mret (inl (failure ("SNMP surging: " +:+ indication +:+
            ". Check if the target device is reachable and SNMP is enabled.")))
      | None =>
          if negb (status_value (errorStatus r) =? 0)%Z then
            mret (inl (failure ("SNMP Error: " +:+ status_pretty (errorStatus r))))
          else
            let '(results, count) := walk_varBinds (varBinds r) results count max_results in
            if (count >=? max_results)%Z then mret (inr (results, count))
            else walk_responses rest results count max_results
      end
  end.

Definition walk_snmp_tree (self : SNMPManager) (stack : Stack) (oid : string)
    (max_results : Z) : M dict :=
  try_except
    (if negb (validate_oid oid) then mret (failure "Invalid OID format")
     else
       let oid := normalize_oid oid in
       result ← send stack {| req_command := NextCmd;
                              req_host := target_host self;
                              req_port := port self;
                              req_community := community self;
                              req_oid := oid |};
       ended ← try_except (walk_responses result [] 0 max_results)
                 (except_AttributeError inl);
       match ended with
       | inl d => mret d
       | inr (results, count) =>
           mret ({[ "success" := VBool true;
                    "results" := VList results;
                    "count" := VInt count ]} : dict)
       end)
    (except_outer "SNMP walk timed out. Check if the target device is reachable or increase timeout.").

(** ** [int(s)] on a string, base 10 *)

Module PyInt.

Definition is_space (c : ascii) : bool :=
  let n := nat_of_ascii c in
  ((9 <=? n) && (n <=? 13) || (n =? 32) || (n =? 133) || (n =? 160))%nat.

Fixpoint lstrip (s : list ascii) : list ascii :=
  match s with
  | c :: s' => if is_space c then lstrip s' else s
  | [] => []
  end.

Definition strip (s : list ascii) : list ascii := rev (lstrip (rev (lstrip s))).

Definition digit_value (c : ascii) : Z := Z.of_nat (nat_of_ascii c) - 48.

(** Digits, with single underscores allowed between two digits.
    [after_digit] tells whether the previous character was a digit. *)
Fixpoint digits (acc : Z) (after_digit : bool) (s : list ascii) : option Z :=
  match s with
  | [] => if after_digit then Some acc else None
  | c :: s' =>
      if Re.is_digit c then digits (acc * 10 + digit_value c) true s'
      else if Ascii.eqb c "_" then (if after_digit then digits acc false s' else None)
      else None
  end.

Definition parse (s : list ascii) : option Z :=
  match strip s with
  | "-"%char :: s' => Z.opp <$> digits 0 false s'
  | "+"%char :: s' => digits 0 false s'
  | s' => digits 0 false s'
  end.

End PyInt.

(** [int(s)]: the value, or [ValueError].  Of the message only the fixed
    part is kept (Python appends the literal); no handler reads it.  The
    interpreter's limit on the number of digits (4300 unless configured
    otherwise), past which [int] raises [ValueError] too, is left out. *)
Definition py_int (s : string) : Outcome Z :=
  match PyInt.parse (list_ascii_of_string s) with
  | Some z => Returned z
  | None =>
      Raised {| exn_class := ValueError;
                exn_str := "invalid literal for int() with base 10" |}
  end.

(** ** TelegramBot and the reconfiguration command *)

(** [snmp_manager] is a reference: the index of the object in the heap. *)
Record TelegramBot := { token : string; snmp_manager : nat; is_running : bool }.

(** The manager objects allocated so far, and [bot_data.get('bot_instance')]. *)
Record World := { heap : list SNMPManager; bot_instance : option TelegramBot }.

(** [bot.snmp_manager], dereferenced. *)
Definition current_manager (w : World) : option SNMPManager :=
  bot ← bot_instance w; heap w !! snmp_manager bot.

(** Lines 274-277: a new manager object is built and the reference is
    rebound; no existing object is written to.  (The defaults
    [community = "public"] and [port = 161] of the signature are never used:
    both callers pass the three arguments.) *)
Definition update_snmp_config (w : World) (self : TelegramBot)
    (host : string) (community : string) (port : Z) : World :=
  {| heap := heap w ++ [SNMPManager_init (Some host) (Some community) (Some port)];
     bot_instance := Some {| token := token self;
                             snmp_manager := List.length (heap w);
                             is_running := is_running self |} |}.

(** The messages [snmp_config] sends with [reply_text]. *)
Inductive Reply :=
| ReplyConfigUsage                                        (* lines 563-575 *)
| ReplyBotNotFound                                        (* line 586 *)
| ReplyConfigUpdated (host community : string) (port : Z) (* lines 591-597 *)
| ReplyInvalidPort      (* line 602: "Invalid port number. Port must be a number." *)
| ReplyConfigError.     (* line 605 *)

(** Lines 559-605, every [reply_text] delivering its message: the world
    afterwards and the messages sent.  [Handler.snmp_config], further down,
    is the handler with a [reply_text] that may raise. *)
Definition snmp_config (w : World) (args : list string) : World * list Reply :=
  match args with
  | [] => (w, [ReplyConfigUsage])
  | host :: _ =>
      let community := default "public" (args !! 1%nat) in
      match (match args !! 2%nat with
             | Some p => py_int p
             | None => Returned 161%Z
             end) with
      | Raised e =>
          match exn_class e with
          | ValueError => (w, [ReplyInvalidPort])
          | _ => (w, [ReplyConfigError])
          end
      | Returned port =>
          match bot_instance w with
          | None => (w, [ReplyBotNotFound])
          | Some bot =>
              (update_snmp_config w bot host community port,
               [ReplyConfigUpdated host community port])
          end
      end
  end.

(** [bot.snmp_manager.get_snmp_value(oid)] of line 492: the reference is
    resolved when the call is made. *)
Definition query (w : World) (stack : Stack) (oid : string) : option (M dict) :=
  self ← current_manager w; Some (get_snmp_value self stack oid).

(** ** Vocabulary of the specification *)

(** The identifier language in the specification's words: after an optional
    leading dot, one or more dot-separated non-negative integers, no segment
    empty and no character other than digits. *)
Module Spec.

Fixpoint split_dots (s : list ascii) : list (list ascii) :=
  match s with
  | [] => [[]]
  | c :: s' =>
      if Ascii.eqb c "." then [] :: split_dots s'
      else match split_dots s' with
           | seg :: segs => (c :: seg) :: segs
           | [] => [[c]]
           end
  end.

Definition is_integer (seg : list ascii) : bool :=
  negb (Re.null seg) && forallb Re.is_digit seg.

Definition strip_leading_dot (s : list ascii) : list ascii :=
  match s with
  | c :: s' => if Ascii.eqb c "." then s' else s
  | [] => []
  end.

Definition dotted_decimal (s : string) : bool :=
  forallb is_integer (split_dots (strip_leading_dot (list_ascii_of_string s))).

(** Zero or more groups "digits, then a dot". *)
Inductive Groups : list ascii → Prop :=
| Groups_nil : Groups []
| Groups_cons d g :
    is_integer d = true → Groups g → Groups (d ++ "."%char :: g).

(** One or more dot-separated integers: groups, then a last integer. *)
Definition Body (w : list ascii) : Prop :=
  ∃ g d, w = g ++ d ∧ Groups g ∧ is_integer d = true.

(** The bindings an agent produces, in traversal order. *)
Fixpoint bindings (s : Stream) : list (PyObj * PyObj) :=
  match s with
  | Yield r rest => varBinds r ++ bindings rest
  | Exhausted | Raise _ => []
  end.

Definition entry_of (vb : PyObj * PyObj) : Entry :=
  {| entry_oid := obj_str (fst vb); entry_value := obj_str (snd vb) |}.

(** A result is tagged: a boolean under "success". *)
Definition tagged (d : dict) : Prop := ∃ b : bool, d !! "success" = Some (VBool b).

(** A result is well formed: tagged, with an error message exactly when the
    tag is false. *)
Definition well_formed (d : dict) : Prop :=
  ∃ b : bool, d !! "success" = Some (VBool b) ∧
    (b = false ↔ ∃ msg, d !! "error" = Some (VStr msg)).

(** In a successful walk result, "count" is the length of "results". *)
Definition count_is_length (d : dict) : Prop :=
  d !! "success" = Some (VBool true) →
  ∃ results, d !! "results" = Some (VList results) ∧
             d !! "count" = Some (VInt (Z.of_nat (List.length results))).

Definition port_in_range (p : Z) : Prop := (1 ≤ p ≤ 65535)%Z.

(** Every manager object of [w] is still there, unchanged, in [w']: a call
    that holds a reference to one of them reads what it read before. *)
Definition preserves_objects (w w' : World) : Prop :=
  ∀ (self : nat) (m : SNMPManager), heap w !! self = Some m → heap w' !! self = Some m.

End Spec.

(** ** Sample inputs *)

Module Sample.

Definition manager : SNMPManager := SNMPManager_init None None None.

Definition obj (s : string) : PyObj :=
  {| obj_str := s; obj_truthy := true; obj_type := "OctetString" |}.

Definition no_error : ErrorStatus := {| status_value := 0; status_pretty := "noError" |}.

Definition ok (vbs : list (PyObj * PyObj)) : Response :=
  {| errorIndication := None; errorStatus := no_error; errorIndex := 0; varBinds := vbs |}.

Definition binding (n : string) : PyObj * PyObj :=
  (obj ("1.3.6.1.2.1.2.2.1.2." +:+ n), obj ("eth" +:+ n)).

(** An agent with five entries under the walked subtree, one per reply. *)
Definition five : Stream :=
  Yield (ok [binding "1"]) (Yield (ok [binding "2"]) (Yield (ok [binding "3"])
    (Yield (ok [binding "4"]) (Yield (ok [binding "5"]) Exhausted)))).

(** An agent that answers with a single binding. *)
Definition one : Stream := Yield (ok [binding "1"]) Exhausted.

(** A reply with error status noSuchName whose error index, 2, points past
    the single binding it carries. *)
Definition bad_index : Response :=
  {| errorIndication := None;
     errorStatus := {| status_value := 2; status_pretty := "noSuchName" |};
     errorIndex := 2;
     varBinds := [binding "1"] |}.

Definition answering (s : Stream) : Stack := λ _, Responds s.

Definition with_newline (s : string) : string :=
  s +:+ String Re.newline EmptyString.

Definition world : World :=
  {| heap := [manager];
     bot_instance := Some {| token := "t"; snmp_manager := 0; is_running := true |} |}.

End Sample.

(** ** The rest of the program: handlers, configuration, start-up *)

#[export] Instance Outcome_ret : MRet Outcome := λ A a, Returned a.

#[export] Instance Outcome_bind : MBind Outcome := λ A B f o,
  match o with
  | Returned a => f a
  | Raised e => Raised e
  end.

(** [d[k]]: the value, or [KeyError]. *)
Definition py_getitem (d : dict) (k : string) : Outcome PyVal :=
  match d !! k with
  | Some v => Returned v
  | None => Raised {| exn_class := OtherException; exn_str := "'" +:+ k +:+ "'" |}
  end.

(** [bool(v)]. *)
Definition py_bool (v : PyVal) : bool :=
  match v with
  | VBool b => b
  | VStr s => negb (String.eqb s "")
  | VInt z => negb (z =? 0)%Z
  | VList l => negb (bool_decide (l = []))
  end.

(** Every reference of the world points to an object, as in Python. *)
Definition wf_world (w : World) : Prop :=
  ∀ bot, bot_instance w = Some bot → is_Some (heap w !! snmp_manager bot).

(** *** The engine against a stack that may raise anything *)

(** [get_snmp_value] and [walk_snmp_tree] once more, for a protocol stack
    that may also raise what derives from [BaseException] without deriving
    from [Exception] (a cancelled task, an interrupt, an exit).  Every
    [except] clause of the two methods names [AttributeError],
    [TimeoutError] or [Exception], so such an exception passes through all
    of them.  On a stack that raises exceptions only, these definitions run
    as the ones above. *)
Module Full.

(** The classes deriving from [BaseException] and not from [Exception];
    [OtherBaseException] is any of them but the three named. *)
Inductive BaseOnly :=
| CancelledError
| KeyboardInterrupt
| SystemExit
| OtherBaseException.

(** What a [raise] carries. *)
Inductive Thrown :=
| Exception (e : Exn)
| BaseException (b : BaseOnly).

Inductive Result (A : Type) :=
| Returns (a : A)
| Raises (t : Thrown).
Arguments Returns {A} a.
Arguments Raises {A} t.

Record M (A : Type) := Run { outcome : Result A; requests : list Request }.
Arguments Run {A} outcome requests.
Arguments outcome {A} m.
Arguments requests {A} m.

#[global] Instance M_ret : MRet M := λ A a, Run (Returns a) [].

#[global] Instance M_bind : MBind M := λ A B f m,
  match outcome m with
  | Returns a => Run (outcome (f a)) (requests m ++ requests (f a))
  | Raises t => Run (Raises t) (requests m)
  end.

Definition raise {A : Type} (t : Thrown) : M A := Run (Raises t) [].

(** [try: body except ...] with clauses for classes that derive from
    [Exception]: [handlers e] is the body of the first clause that catches
    [e], or [None] when no clause does; no clause is tried on what derives
    from [BaseException] only. *)
Definition try_except {A : Type} (body : M A) (handlers : Exn → option (M A)) : M A :=
  match outcome body with
  | Returns _ => body
  | Raises (BaseException _) => body
  | Raises (Exception e) =>
      match handlers e with
      | Some h => Run (outcome h) (requests body ++ requests h)
      | None => body
      end
  end.

Inductive Stream :=
| Exhausted
| Yield (r : Response) (rest : Stream)
| Raise (t : Thrown).

Inductive Attempt :=
| SetupFails (t : Thrown)
| Responds (s : Stream).

Definition Stack : Type := Request → Attempt.

Definition send (stack : Stack) (rq : Request) : M Stream :=
  match stack rq with
  | SetupFails t => Run (Raises t) [rq]
  | Responds s => Run (Returns s) [rq]
  end.

(** Lines 88-111. *)
Fixpoint get_responses (s : Stream) : M (option dict) :=
  match s with
  | Exhausted => mret None
  | Raise t => raise t
  | Yield r rest =>
      match errorIndication r with
      | Some indication =>
          mret (Some (failure ("SNMP Error: " +:+ indication +:+
            ". Check if the target device is reachable and SNMP is enabled.")))
      | None =>
          if negb (status_value (errorStatus r) =? 0)%Z then
            match error_position r with
            | Raised e => raise (Exception e)
            | Returned at_ =>
                mret (Some (failure ("SNMP Error: " +:+ status_pretty (errorStatus r) +:+
                                     " at " +:+ at_)))
            end
          else
            match varBinds r with
            | varBind :: _ =>
                mret (Some ({[ "success" := VBool true;
                               "oid" := VStr (obj_str (fst varBind));
                               "value" := VStr (obj_str (snd varBind));
                               "type" := VStr (obj_type (snd varBind)) ]} : dict))
            | [] => get_responses rest
            end
      end
  end.

(** Lines 112-117 and 200-205. *)
Definition except_AttributeError {A : Type} (ret : dict → A) (ae : Exn) : option (M A) :=
  match exn_class ae with
  | AttributeError =>
      Some (mret (ret (failure ("SNMP AttributeError: " +:+ exn_str ae +:+
                                ". Ensure the correct pysnmp version is installed."))))
  | _ => None
  end.

(** Lines 125-136 and 214-225: [except TimeoutError], then
    [except Exception]. *)
Definition except_outer (timed_out : string) (e : Exn) : option (M dict) :=
  match exn_class e with
  | TimeoutError => Some (mret (failure timed_out))
  | _ => Some (mret (failure ("Connection error: " +:+ exn_str e +:+
                              ". Ensure the SNMP target is configured correctly.")))
  end.

(** Lines 58-136. *)
Definition get_snmp_value (self : SNMPManager) (stack : Stack) (oid : string) : M dict :=
  try_except
    (if negb (validate_oid oid) then
       mret (failure "Invalid OID format. OID should contain only numbers and dots (e.g., 1.3.6.1.2.1.1.1.0)")
     else
       let oid := normalize_oid oid in
       result ← send stack {| req_command := GetCmd;
                              req_host := target_host self;
                              req_port := port self;
                              req_community := community self;
                              req_oid := oid |};
       returned ← try_except (get_responses result) (except_AttributeError Some);
       match returned with
       | Some d => mret d
       | None =>
           mret (failure "No data received from SNMP query. Verify the OID and target configuration.")
       end)
    (except_outer "SNMP request timed out. Check if the target device is reachable or increase timeout.").

(** Lines 171-199. *)
Fixpoint walk_responses (s : Stream) (results : list Entry) (count : Z)
    (max_results : Z) : M (dict + list Entry * Z) :=
  match s with
  | Exhausted => mret (inr (results, count))
  | Raise t => raise t
  | Yield r rest =>
      match errorIndication r with
      | Some indication =>
          mret (inl (failure ("SNMP surging: " +:+ indication +:+
            ". Check if the target device is reachable and SNMP is enabled.")))
      | None =>
          if negb (status_value (errorStatus r) =? 0)%Z then
            mret (inl (failure ("SNMP Error: " +:+ status_pretty (errorStatus r))))
          else
            let '(results, count) := walk_varBinds (varBinds r) results count max_results in
            if (count >=? max_results)%Z then mret (inr (results, count))
            else walk_responses rest results count max_results
      end
  end.

(** Lines 138-225. *)
Definition walk_snmp_tree (self : SNMPManager) (stack : Stack) (oid : string)
    (max_results : Z) : M dict :=
  try_except
    (if negb (validate_oid oid) then mret (failure "Invalid OID format")
     else
       let oid := normalize_oid oid in
       result ← send stack {| req_command := NextCmd;
                              req_host := target_host self;
                              req_port := port self;
                              req_community := community self;
                              req_oid := oid |};
       ended ← try_except (walk_responses result [] 0 max_results)
                 (except_AttributeError inl);
       match ended with
       | inl d => mret d
       | inr (results, count) =>
           mret ({[ "success" := VBool true;
                    "results" := VList results;
                    "count" := VInt count ]} : dict)
       end)
    (except_outer "SNMP walk timed out. Check if the target device is reachable or increase timeout.").



(** The two shapes of a fetch result. *)
Definition query_result (d : dict) : Prop :=
  (∃ msg, d = failure msg) ∨
  (∃ o v t, d = {[ "success" := VBool true; "oid" := VStr o;
                   "value" := VStr v; "type" := VStr t ]}).

End Full.

(** A stream, an answer, a stack and a run of the first kind, read as ones
    of the second. *)
Fixpoint full_stream (s : Stream) : Full.Stream :=
  match s with
  | Exhausted => Full.Exhausted
  | Yield r rest => Full.Yield r (full_stream rest)
  | Raise e => Full.Raise (Full.Exception e)
  end.

Definition full_stack (stack : Stack) : Full.Stack := λ rq,
  match stack rq with
  | SetupFails e => Full.SetupFails (Full.Exception e)
  | Responds s => Full.Responds (full_stream s)
  end.


(** *** What a handler does: messages and requests *)

Module Handler.

(** [update.message.reply_text]: [None] when the message is sent, what the
    call raises otherwise. *)
Definition Chat (R : Type) : Type := R → option Full.Thrown.

(** How the handler ends, the messages it has sent, in order, and the
    requests it has handed to the stack. *)
Record H (R A : Type) := Did {
  ended : Full.Result A;
  sent : list R;
  asked : list Request
}.
Arguments Did {R A} ended sent asked.
Arguments ended {R A} h.
Arguments sent {R A} h.
Arguments asked {R A} h.

#[global] Instance H_ret {R} : MRet (H R) := λ A a, Did (Full.Returns a) [] [].

#[global] Instance H_bind {R} : MBind (H R) := λ A B f m,
  match ended m with
  | Full.Returns a =>
      Did (ended (f a)) (sent m ++ sent (f a)) (asked m ++ asked (f a))
  | Full.Raises t => Did (Full.Raises t) (sent m) (asked m)
  end.

Definition reply_text {R : Type} (chat : Chat R) (r : R) : H R unit :=
  match chat r with
  | None => Did (Full.Returns ()) [r] []
  | Some t => Did (Full.Raises t) [] []
  end.

(** [await] of an engine call. *)
Definition await {R A : Type} (m : Full.M A) : H R A :=
  Did (Full.outcome m) [] (Full.requests m).

(** An expression that may raise an exception. *)
Definition evaluate {R A : Type} (o : Outcome A) : H R A :=
  match o with
  | Returned a => mret a
  | Raised e => Did (Full.Raises (Full.Exception e)) [] []
  end.

(** [try: body except ...], the clauses naming classes that derive from
    [Exception]. *)
Definition try_except {R A : Type} (body : H R A) (handlers : Exn → option (H R A))
    : H R A :=
  match ended body with
  | Full.Returns _ => body
  | Full.Raises (Full.BaseException _) => body
  | Full.Raises (Full.Exception e) =>
      match handlers e with
      | Some h => Did (ended h) (sent body ++ sent h) (asked body ++ asked h)
      | None => body
      end
  end.

(** Lines 559-605 with the messages sent one by one: the world afterwards,
    and what the handler did. *)
Definition snmp_config (w : World) (chat : Chat Reply) (args : list string)
    : World * H Reply unit :=
  let handlers (e : Exn) :=
    match exn_class e with
    | ValueError => Some (reply_text chat ReplyInvalidPort)
    | _ => Some (reply_text chat ReplyConfigError)
    end in
  match args with
  | [] => (w, try_except (reply_text chat ReplyConfigUsage) handlers)
  | host :: _ =>
      let community := default "public" (args !! 1%nat) in
      match (match args !! 2%nat with
             | Some p => py_int p
             | None => Returned 161%Z
             end) with
      | Raised e => (w, try_except (evaluate (Raised e)) handlers)
      | Returned port =>
          match bot_instance w with
          | None => (w, try_except (reply_text chat ReplyBotNotFound) handlers)
          | Some bot =>
              (update_snmp_config w bot host community port,
               try_except (reply_text chat (ReplyConfigUpdated host community port))
                 handlers)
          end
      end
  end.

End Handler.

(** The world once the reconfigurations [during], each a host, a community
    and a port, have gone through. *)
Definition reconfigured (w : World) (during : list (string * string * Z)) : World :=
  foldl (λ w c, match bot_instance w with
                | Some bot => update_snmp_config w bot c.1.1 c.1.2 c.2
                | None => w
                end) w during.

(** [bot.snmp_manager]: the manager object the bot refers to.  A world in
    which the reference points to no object, which [wf_world] excludes, is
    given an [AttributeError]. *)
Definition manager_of (w : World) : Outcome SNMPManager :=
  match current_manager w with
  | Some m => Returned m
  | None => Raised {| exn_class := AttributeError;
                      exn_str := "'NoneType' object has no attribute 'snmp_manager'" |}
  end.

(** *** [/snmp] (lines 467-510) *)

(** The messages of [snmp_get]; a formatted field is kept as the value that
    is formatted. *)
Inductive GetReply :=
| GetUsage                                               (* lines 471-480 *)
| GetQuerying                                            (* line 484 *)
| GetBotNotFound                                         (* line 489 *)
| GetSuccessful (oid value type_ : PyVal) (target : string)   (* lines 495-501 *)
| GetFailed (error : PyVal)                              (* line 503 *)
| GetError.                                              (* line 510 *)

(** Lines 494-503: the response built from the result; [target] is the read
    of [bot.snmp_manager.target_host] of line 500. *)
Definition present_get (result : dict) (target : Outcome string) : Outcome GetReply :=
  success ← py_getitem result "success";
  if py_bool success then
    oid ← py_getitem result "oid";
    value ← py_getitem result "value";
    type_ ← py_getitem result "type";
    target ← target;
    mret (GetSuccessful oid value type_ target)
  else
    error ← py_getitem result "error";
    mret (GetFailed error).

(** The handler.  [w] is the world when the query is made (line 492) and
    [during] the reconfigurations that go through while it is awaited (none,
    when updates are handled one at a time): the query runs on the manager
    the bot refers to in [w], the target host is read afterwards
    (line 500). *)
Definition snmp_get (w : World) (during : list (string * string * Z))
    (stack : Full.Stack) (chat : Handler.Chat GetReply) (args : list string)
    : Handler.H GetReply unit :=
  Handler.try_except
    (match args with
     | [] => Handler.reply_text chat GetUsage
     | oid :: _ =>
         _ ← Handler.reply_text chat GetQuerying;
         match bot_instance w with
         | None => Handler.reply_text chat GetBotNotFound
         | Some bot =>
             self ← Handler.evaluate (manager_of w);
             result ← Handler.await (Full.get_snmp_value self stack oid);
             response ← Handler.evaluate
               (present_get result
                  (self' ← manager_of (reconfigured w during); mret (target_host self')));
             Handler.reply_text chat response
         end
     end)
    (λ _, Some (Handler.reply_text chat GetError)).

(** *** [/snmpwalk] (lines 512-556) *)




(** *** [/snmpstatus] (lines 608-628) *)

Inductive StatusReply :=
| StatusBotNotFound                                      (* line 613 *)
| StatusShown (host community : string) (port : Z)       (* lines 616-622 *)
| StatusError.                                           (* line 628 *)

(** The message the handler calls for, which is the one sent when
    [reply_text] delivers it. *)
Definition snmp_status (w : World) : list StatusReply :=
  match bot_instance w with
  | None => [StatusBotNotFound]
  | Some bot =>
      match heap w !! snmp_manager bot with
      | Some m => [StatusShown (target_host m) (community m) (port m)]
      | None => [StatusError]
      end
  end.

(** *** Shapes of an agent's stream *)

Module Agent.

(** [s], then [tail] once [s] runs out. *)
Fixpoint followed_by (s tail : Stream) : Stream :=
  match s with
  | Exhausted => tail
  | Yield r rest => Yield r (followed_by rest tail)
  | Raise e => Raise e
  end.

(** A reply with neither error indication nor error status. *)
Definition clean_reply (r : Response) : bool :=
  match errorIndication r with
  | Some _ => false
  | None => (status_value (errorStatus r) =? 0)%Z
  end.

(** A stream of clean replies that ends by running out. *)
Fixpoint clean (s : Stream) : bool :=
  match s with
  | Exhausted => true
  | Yield r rest => clean_reply r && clean rest
  | Raise _ => false
  end.

(** A clean stream without a single binding. *)
Fixpoint silent (s : Stream) : bool :=
  match s with
  | Exhausted => true
  | Yield r rest =>
      clean_reply r && bool_decide (varBinds r = []) && silent rest
  | Raise _ => false
  end.

End Agent.

(** *** [str.strip()] and [str.split(sep)] *)

Module PyStr.

(** [str.isspace] on one character. *)
Definition is_space (c : ascii) : bool :=
  let n := nat_of_ascii c in
  ((9 <=? n) && (n <=? 13) || (28 <=? n) && (n <=? 32) || (n =? 133) || (n =? 160))%nat.

Fixpoint lstrip (s : list ascii) : list ascii :=
  match s with
  | c :: s' => if is_space c then lstrip s' else s
  | [] => []
  end.

Definition strip (s : string) : string :=
  string_of_list_ascii (rev (lstrip (rev (lstrip (list_ascii_of_string s))))).

(** The pieces between the separators: one more than there are separators. *)
Fixpoint split_chars (sep : ascii) (s : list ascii) : list (list ascii) :=
  match s with
  | [] => [[]]
  | c :: s' =>
      if Ascii.eqb c sep then [] :: split_chars sep s'
      else match split_chars sep s' with
           | piece :: pieces => (c :: piece) :: pieces
           | [] => [[c]]
           end
  end.

Definition split (sep : ascii) (s : string) : list string :=
  string_of_list_ascii <$> split_chars sep (list_ascii_of_string s).

End PyStr.

(** *** Config (lines 664-681) and start-up (lines 685-719) *)

(** The process environment: [os.getenv(k)] is [env !! k]. *)
Abbreviation Env := (gmap string string).

Record Config := {
  TOKEN : string;
  ADMIN_IDS : list Z;
  SNMP_HOST : string;
  SNMP_COMMUNITY : string;
  SNMP_PORT : Z
}.

(** [[int(id.strip()) for id in pieces]]. *)
Fixpoint admin_ids_of (pieces : list string) : Outcome (list Z) :=
  match pieces with
  | [] => mret []
  | id :: pieces' =>
      z ← py_int (PyStr.strip id);
      zs ← admin_ids_of pieces';
      mret (z :: zs)
  end.

Definition _parse_admin_ids (env : Env) : Outcome (list Z) :=
  let admin_ids_str := default "" (env !! "ADMIN_IDS") in
  if String.eqb admin_ids_str "" then mret []
  else admin_ids_of (PyStr.split "," admin_ids_str).

(** [os.getenv(k) or d]. *)
Definition getenv_or (env : Env) (k d : string) : string :=
  match env !! k with
  | Some v => if String.eqb v "" then d else v
  | None => d
  end.

Definition Config_init (env : Env) : Outcome Config :=
  let token := getenv_or env "TELEGRAM_BOT_TOKEN" "YOUR_BOT_TOKEN_HERE" in
  admin_ids ← _parse_admin_ids env;
  let host := default "192.168.137.130" (env !! "SNMP_HOST") in
  let community := default "public" (env !! "SNMP_COMMUNITY") in
  port ← py_int (default "161" (env !! "SNMP_PORT"));
  mret {| TOKEN := token; ADMIN_IDS := admin_ids; SNMP_HOST := host;
          SNMP_COMMUNITY := community; SNMP_PORT := port |}.

(** [TelegramBot(token)] (lines 228-233): the bot and the first manager,
    built with the defaults, that it refers to. *)
Definition TelegramBot_init (token : string) : list SNMPManager * TelegramBot :=
  ([SNMPManager_init None None None],
   {| token := token; snmp_manager := 0; is_running := false |}).

(** [main] up to the point where the bot starts to run, with the bot
    registered in [bot_data] (line 714): [None] when it returns at the token
    check of line 689. *)
Definition main (env : Env) : Outcome (option World) :=
  config ← Config_init env;
  if String.eqb (TOKEN config) "" then mret None
  else
    let '(objects, bot) := TelegramBot_init (TOKEN config) in
    mret (Some (update_snmp_config {| heap := objects; bot_instance := None |} bot
                  (SNMP_HOST config) (SNMP_COMMUNITY config) (SNMP_PORT config))).

(** *** Requests and sample inputs for the rest of the program *)

(** The request a fetch, and a walk, of [oid] on [self] hands to the stack. *)
Definition get_request (self : SNMPManager) (oid : string) : Request :=
  {| req_command := GetCmd; req_host := target_host self; req_port := port self;
     req_community := community self; req_oid := normalize_oid oid |}.

Definition walk_request (self : SNMPManager) (oid : string) : Request :=
  {| req_command := NextCmd; req_host := target_host self; req_port := port self;
     req_community := community self; req_oid := normalize_oid oid |}.

Module Fixture.

(** A clean reply without bindings. *)
Definition empty_reply : Response := Sample.ok [].

Definition attribute_error : Exn :=
  {| exn_class := AttributeError;
     exn_str := "'coroutine' object has no attribute 'transport'" |}.

Definition no_such_name : ErrorStatus :=
  {| status_value := 2; status_pretty := "noSuchName" |}.

(** Error status noSuchName for the first of two bindings. *)
Definition status_first : Response :=
  {| errorIndication := None; errorStatus := no_such_name; errorIndex := 1;
     varBinds := [Sample.binding "1"; Sample.binding "2"] |}.

(** A reply that reports that no answer came before the timeout. *)
Definition unreachable : Response :=
  {| errorIndication := Some "No SNMP response received before timeout";
     errorStatus := Sample.no_error; errorIndex := 0; varBinds := [] |}.

(** Two replies of two bindings each. *)
Definition two_by_two : Stream :=
  Yield (Sample.ok [Sample.binding "1"; Sample.binding "2"])
    (Yield (Sample.ok [Sample.binding "3"; Sample.binding "4"]) Exhausted).

End Fixture.

(** *** Registration of commands (lines 235-272) *)

Module Registration.
Section Registration.

(** The handler functions: any values. *)
Context {Callable : Type}.

(** What is added to the application with [add_handler]: a
    [CommandHandler(command, handler)], or the [MessageHandler] for text that
    is not a command (lines 260-262). *)
Inductive AppHandler :=
| OnCommand (command : string) (handler : Callable)
| OnText.

(** The application as far as the bot fills it: the handlers in the order
    they were added, and the number of error handlers. *)
Record Application := { handlers : list AppHandler; error_handlers : nat }.

(** [self.application] and [self.commands]. *)
Record Registry := { application : option Application; commands : gmap string Callable }.

(** Lines 228-233. *)
Definition fresh : Registry := {| application := None; commands := ∅ |}.

(** Lines 235-249: the builder gives an application without handlers. *)
Definition _build_application : Application := {| handlers := []; error_handlers := 0 |}.

(** Lines 251-262. *)
Definition _setup_handlers (self : Registry) : Registry :=
  match application self with
  | None => self
  | Some app =>
      {| application := Some {| handlers := handlers app ++ [OnText];
                                error_handlers := S (error_handlers app) |};
         commands := commands self |}
  end.

(** Lines 264-272. *)
Definition register_command (command : string) (handler : Callable) (self : Registry)
    : Registry :=
  let self :=
    match application self with
    | None =>
        _setup_handlers {| application := Some _build_application;
                           commands := commands self |}
    | Some _ => self
    end in
  {| application :=
       (λ app, {| handlers := handlers app ++ [OnCommand command handler];
                  error_handlers := error_handlers app |}) <$> application self;
     commands := <[command := handler]> (commands self) |}.

(** A series of registrations, as in lines 700-710. *)
Definition register_all (regs : list (string * Callable)) (self : Registry) : Registry :=
  foldl (λ self reg, register_command reg.1 reg.2 self) self regs.

End Registration.
End Registration.

(** *** Starting and stopping (lines 305-343) *)

Module Lifecycle.

(** The awaited calls into the library, and [_build_application]. *)
Inductive LibCall :=
| CallBuild
| CallInitialize
| CallStart
| CallStartPolling
| CallUpdaterStop
| CallStop
| CallShutdown.

(** What the library does with a call: [None] when it succeeds, what it
    raises otherwise. *)
Definition Library : Type := LibCall → option Full.Thrown.

(** [self.application] being set, and [self.is_running]. *)
Record Life := { built : bool; running : bool }.

(** How a method ends, the state it leaves and the calls it made. *)
Record Ran := { ended : Full.Result unit; after : Life; made : list LibCall }.

(** The calls [cs] in order, up to the first that raises. *)
Fixpoint perform (lib : Library) (cs : list LibCall)
    : option Full.Thrown * list LibCall :=
  match cs with
  | [] => (None, [])
  | c :: cs' =>
      match lib c with
      | Some t => (Some t, [c])
      | None => let '(r, done) := perform lib cs' in (r, c :: done)
      end
  end.

(** Lines 305-328: the handler logs and raises again, so whatever is raised
    reaches the caller. *)
Definition start_bot (lib : Library) (self : Life) : Ran :=
  let '(r0, made0) := if built self then (None, []) else perform lib [CallBuild] in
  match r0 with
  | Some t => {| ended := Full.Raises t; after := self; made := made0 |}
  | None =>
      let self := {| built := true; running := running self |} in
      let '(r1, made1) := perform lib [CallInitialize; CallStart] in
      match r1 with
      | Some t => {| ended := Full.Raises t; after := self; made := made0 ++ made1 |}
      | None =>
          let self := {| built := true; running := true |} in
          let '(r2, made2) := perform lib [CallStartPolling] in
          {| ended := match r2 with
                      | Some t => Full.Raises t
                      | None => Full.Returns ()
                      end;
             after := self;
             made := made0 ++ made1 ++ made2 |}
      end
  end.

(** Lines 330-343: [except Exception] logs and goes on; what derives from
    [BaseException] only is not caught. *)
Definition stop_bot (lib : Library) (self : Life) : Ran :=
  if built self && running self then
    let '(r, made) := perform lib [CallUpdaterStop; CallStop; CallShutdown] in
    {| ended := match r with
                | Some (Full.BaseException b) => Full.Raises (Full.BaseException b)
                | Some (Full.Exception _) | None => Full.Returns ()
                end;
       after := {| built := true; running := false |};
       made := made |}
  else {| ended := Full.Returns (); after := self; made := [] |}.

(** Lines 347-358 when [start_bot] raises: [KeyboardInterrupt] and
    exceptions are logged, the [finally] clause stops the bot, and what was
    not caught, or what [stop_bot] raises, goes on to the caller. *)
Definition start_then_stop (lib : Library) (self : Life) : Ran :=
  let started := start_bot lib self in
  let stopped := stop_bot lib (after started) in
  {| ended := match ended stopped, ended started with
              | Full.Raises t, _ => Full.Raises t
              | Full.Returns _, Full.Raises (Full.BaseException Full.KeyboardInterrupt) =>
                  Full.Returns ()
              | Full.Returns _, Full.Raises (Full.BaseException b) =>
                  Full.Raises (Full.BaseException b)
              | Full.Returns _, _ => Full.Returns ()
              end;
     after := after stopped;
     made := made started ++ made stopped |}.

End Lifecycle.

(* ================================================================== *)
(** * Part II: theorems *)
(* ================================================================== *)

(** ** The matcher decides the declarative meaning of a pattern *)

Section ReFacts.
Import Re.

Lemma Matches_Seq_inv r1 r2 b w k :
  Matches (Seq r1 r2) b w k →
  ∃ w1 w2, w = w1 ++ w2 ∧ Matches r1 b w1 (w2 ++ k) ∧ Matches r2 (b && null w1) w2 k.
Proof. inversion 1; subst; eauto. Qed.

Lemma Matches_Alt_inv r1 r2 b w k :
  Matches (Alt r1 r2) b w k → Matches r1 b w k ∨ Matches r2 b w k.
Proof. inversion 1; subst; eauto. Qed.

Lemma Matches_Chars_inv p b w k :
  Matches (Chars p) b w k → ∃ c, w = [c] ∧ p c = true.
Proof. inversion 1; subst; eauto. Qed.

Lemma Matches_Star_inv r b w k :
  Matches (Star r) b w k →
  w = [] ∨ ∃ w1 w2, w = w1 ++ w2 ∧ Matches r b w1 (w2 ++ k) ∧
                     Matches (Star r) (b && null w1) w2 k.
Proof. inversion 1; subst; eauto 8. Qed.

Lemma nullable_Matches b k r : nullable b k r = true ↔ Matches r b [] k.
Proof.
  induction r; simpl.
  - split; [done | inversion 1].
  - split; [constructor | done].
  - split; [intros ->; constructor | by inversion 1].
  - split; [by constructor | by inversion 1].
  - split; [done | inversion 1].
  - rewrite andb_true_iff, IHr1, IHr2. split.
    + intros [H1 H2]. apply (MSeq _ _ _ [] []); simpl; [done|].
      by rewrite andb_true_r.
    + intros (w1 & w2 & Hw & H1 & H2)%Matches_Seq_inv.
      symmetry in Hw. apply app_eq_nil in Hw as [-> ->]. simpl in *.
      by rewrite andb_true_r in H2.
  - rewrite orb_true_iff, IHr1, IHr2. split.
    + intros [H|H]; [by apply MAltL | by apply MAltR].
    + apply Matches_Alt_inv.
  - split; [constructor | done].
Qed.

Lemma Matches_star_cons r b c w k :
  Matches (Star r) b (c :: w) k →
  ∃ w1 w2, w = w1 ++ w2 ∧ Matches r b (c :: w1) (w2 ++ k) ∧ Matches (Star r) false w2 k.
Proof.
  intros H. remember (Star r) as r' eqn:Er. remember (c :: w) as cw eqn:Ew.
  revert Er Ew. induction H; intros Er Ew; try discriminate.
  injection Er as ->. destruct w1 as [|c' w1].
  - simpl in *. rewrite andb_true_r in *. by apply IHMatches2.
  - simpl in *. injection Ew as -> <-. rewrite andb_false_r in *. eauto.
Qed.

Lemma deriv_Matches r : ∀ b c w k,
  Matches (deriv b (c :: w ++ k) c r) false w k ↔ Matches r b (c :: w) k.
Proof.
  induction r; intros b c w k; simpl.
  1-4: split; inversion 1.
  - split.
    + destruct (p c) eqn:Hp; inversion 1; subst. by constructor.
    + intros (c' & [= <-] & ->)%Matches_Chars_inv. 
      destruct w; [constructor | done].
  - split.
    + intros [H|H]%Matches_Alt_inv.
      * apply Matches_Seq_inv in H as (w1 & w2 & -> & H1 & H2).
        change (c :: w1 ++ w2) with ((c :: w1) ++ w2).
        apply MSeq.
        -- apply IHr1. by rewrite <- app_assoc in H1.
        -- simpl. by rewrite andb_false_r.
      * destruct (nullable b (c :: w ++ k) r1) eqn:Hn; [|inversion H].
        apply (MSeq _ _ _ [] (c :: w)); simpl.
        -- by apply nullable_Matches.
        -- rewrite andb_true_r. by apply IHr2.
    + intros (w1 & w2 & Hw & H1 & H2)%Matches_Seq_inv.
      destruct w1 as [|c' w1]; simpl in *.
      * subst. rewrite andb_true_r in H2. apply MAltR.
        apply nullable_Matches in H1. simpl in H1. rewrite H1. by apply IHr2.
      * injection Hw as <- ->. apply MAltL. rewrite andb_false_r in H2.
        apply MSeq; [|done]. rewrite <- app_assoc. by apply IHr1.
  - split.
    + intros [H|H]%Matches_Alt_inv; [apply MAltL, IHr1 | apply MAltR, IHr2]; done.
    + intros [H|H]%Matches_Alt_inv; [apply MAltL, IHr1 | apply MAltR, IHr2]; done.
  - split.
    + intros (w1 & w2 & -> & H1 & H2)%Matches_Seq_inv.
      change (c :: w1 ++ w2) with ((c :: w1) ++ w2).
      apply MStarS.
      * apply IHr. by rewrite <- app_assoc in H1.
      * simpl. by rewrite andb_false_r.
    + intros (w1 & w2 & -> & H1 & H2)%Matches_star_cons.
      apply (MSeq _ _ _ w1 w2); [|done].
      rewrite <- app_assoc. by apply IHr.
Qed.

Lemma match_from_Matches s : ∀ b r,
  match_from b r s = true ↔ ∃ w k, s = w ++ k ∧ Matches r b w k.
Proof.
  induction s as [|c s IH]; intros b r; simpl.
  - rewrite orb_false_r, nullable_Matches. split.
    + intros H. by exists [], [].
    + intros (w & k & Hs & H). symmetry in Hs. apply app_eq_nil in Hs as [-> ->]. done.
  - rewrite orb_true_iff, nullable_Matches, IH. split.
    + intros [H | (w & k & -> & H)].
      * by exists [], (c :: s).
      * exists (c :: w), k. split; [done|]. by apply deriv_Matches.
    + intros (w & k & Hs & H). destruct w as [|c' w]; simpl in Hs.
      * subst. by left.
      * injection Hs as <- ->. right. exists w, k. split; [done|]. by apply deriv_Matches.
Qed.


End ReFacts.

(** ** The language of the identifier pattern *)

Section OidLanguage.
Import Re Spec.

Lemma is_digit_not_dot c : is_digit c = true → Ascii.eqb c "." = false.
Proof.
  intros H. destruct (Ascii.eqb_spec c ".") as [->|]; [discriminate H | done].
Qed.

Lemma Matches_digits b w k :
  Matches (Star Digit) b w k ↔ forallb is_digit w = true.
Proof.
  split.
  - intros H. remember (Star Digit) as r eqn:Er. revert Er.
    induction H; intros Er; try discriminate; [done|].
    injection Er as ->.
    apply Matches_Chars_inv in H as (c & -> & Hc). simpl.
    rewrite Hc. by apply IHMatches2.
  - revert b. induction w as [|c w IH]; intros b; simpl; [constructor|].
    intros [Hc Hw]%andb_true_iff.
    apply (MStarS _ _ [c] w); [by constructor | by apply IH].
Qed.

Lemma Matches_integer b w k :
  Matches (Plus Digit) b w k ↔ is_integer w = true.
Proof.
  unfold Plus, is_integer. split.
  - intros (w1 & w2 & -> & H1 & H2)%Matches_Seq_inv.
    apply Matches_Chars_inv in H1 as (c & -> & Hc).
    apply Matches_digits in H2. simpl. by rewrite Hc.
  - destruct w as [|c w]; [done|]. simpl.
    intros [Hc Hw]%andb_true_iff.
    apply (MSeq _ _ _ [c] w); [by constructor | by apply Matches_digits].
Qed.

Lemma Matches_group b w k :
  Matches (Grp (Seq (Plus Digit) (Lit "."))) b w k ↔
  ∃ d, is_integer d = true ∧ w = d ++ ["."%char].
Proof.
  unfold Grp. split.
  - intros (d & w2 & -> & H1 & H2)%Matches_Seq_inv.
    apply Matches_integer in H1.
    apply Matches_Chars_inv in H2 as (c & -> & Hc).
    apply Ascii.eqb_eq in Hc as <-. eauto.
  - intros (d & Hd & ->). apply MSeq.
    + by apply Matches_integer.
    + constructor. apply Ascii.eqb_refl.
Qed.

Lemma Matches_groups b w k :
  Matches (Star (Grp (Seq (Plus Digit) (Lit ".")))) b w k ↔ Groups w.
Proof.
  split.
  - intros H. remember (Star (Grp (Seq (Plus Digit) (Lit ".")))) as r eqn:Er.
    revert Er. induction H; intros Er; try discriminate; [constructor|].
    injection Er as ->.
    apply Matches_group in H as (d & Hd & ->).
    rewrite <- app_assoc. simpl. constructor; [done | by apply IHMatches2].
  - intros H. revert b. induction H as [|d g Hd Hg IH]; intros b; [constructor|].
    replace (d ++ "."%char :: g) with ((d ++ ["."%char]) ++ g)
      by (by rewrite <- app_assoc).
    apply MStarS; [|apply IH].
    apply Matches_group. eauto.
Qed.

Lemma Matches_body b w k :
  Matches (Seq (Star (Grp (Seq (Plus Digit) (Lit "."))))
               (Seq (Plus Digit) Eol)) b w k ↔
  Body w ∧ at_end k = true.
Proof.
  split.
  - intros (g & w2 & -> & H1 & H2)%Matches_Seq_inv.
    apply Matches_groups in H1.
    apply Matches_Seq_inv in H2 as (d & e & -> & H2 & H3).
    apply Matches_integer in H2.
    inversion H3; subst. rewrite app_nil_r.
    split; [|done]. by exists g, d.
  - intros [(g & d & -> & Hg & Hd) Hk].
    apply MSeq; [by apply Matches_groups|].
    rewrite <- (app_nil_r d). apply MSeq.
    + by apply Matches_integer.
    + by constructor.
Qed.

Lemma Matches_pattern w k :
  Matches pattern true w k ↔
  (Body w ∨ ∃ w', w = "."%char :: w' ∧ Body w') ∧ at_end k = true.
Proof.
  unfold pattern. split.
  - intros (w0 & w1 & -> & H0 & H1)%Matches_Seq_inv.
    inversion H0; subst. simpl in *.
    apply Matches_Seq_inv in H1 as (w2 & w3 & -> & H1 & H2).
    apply Matches_body in H2 as [Hb Hk]. split; [|done].
    apply Matches_Alt_inv in H1 as [H1|H1].
    + apply Matches_Chars_inv in H1 as (c & -> & Hc).
      apply Ascii.eqb_eq in Hc as <-. right. eauto.
    + inversion H1; subst. by left.
  - intros [Hw Hk]. apply (MSeq _ _ _ [] w); [constructor|]. simpl.
    destruct Hw as [Hb | (w' & -> & Hb)].
    + apply (MSeq _ _ _ [] w); [apply MAltR; constructor|].
      by apply Matches_body.
    + apply (MSeq _ _ _ ["."%char] w').
      * apply MAltL. constructor. apply Ascii.eqb_refl.
      * by apply Matches_body.
Qed.

(** *** The specification's reading: split at the dots *)

Lemma split_dots_integer d :
  forallb is_digit d = true → split_dots d = [d].
Proof.
  induction d as [|c d IH]; simpl; [done|].
  intros [Hc Hd]%andb_true_iff.
  by rewrite (is_digit_not_dot c Hc), IH.
Qed.

Lemma split_dots_app d rest :
  forallb is_digit d = true →
  split_dots (d ++ "."%char :: rest) = d :: split_dots rest.
Proof.
  induction d as [|c d IH]; simpl; [done|].
  intros [Hc Hd]%andb_true_iff.
  by rewrite (is_digit_not_dot c Hc), IH.
Qed.

Lemma split_dots_inv w seg segs :
  split_dots w = seg :: segs →
  (segs = [] ∧ w = seg) ∨
  (∃ rest, w = seg ++ "."%char :: rest ∧ segs = split_dots rest).
Proof.
  revert seg segs. induction w as [|c w IH]; intros seg segs; simpl.
  - intros [= <- <-]. by left.
  - destruct (Ascii.eqb_spec c ".") as [->|Hc].
    + intros [= <- <-]. right. by exists w.
    + destruct (split_dots w) as [|seg' segs'] eqn:Hs.
      * intros [= <- <-]. destruct w; simpl in Hs; [done|].
        destruct (Ascii.eqb a "."); [done|]. by destruct (split_dots w).
      * intros [= <- <-].
        destruct (IH _ _ eq_refl) as [[-> ->] | (rest & -> & ->)].
        -- by left.
        -- right. by exists rest.
Qed.

Lemma is_integer_digits d : is_integer d = true → forallb is_digit d = true.
Proof. unfold is_integer. by intros [_ ?]%andb_true_iff. Qed.

Lemma Body_split_dots w :
  forallb is_integer (split_dots w) = true ↔ Body w.
Proof.
  split.
  - remember (split_dots w) as segs eqn:Hs. symmetry in Hs.
    revert w Hs. induction segs as [|seg segs IH]; intros w Hs; simpl.
    + destruct w; simpl in Hs; [done|].
      destruct (Ascii.eqb a "."); [done|]. by destruct (split_dots w).
    + intros [Hseg Hsegs]%andb_true_iff.
      apply split_dots_inv in Hs as [[-> ->] | (rest & -> & ->)].
      * exists [], seg. split_and!; [done | constructor | done].
      * destruct (IH rest eq_refl Hsegs) as (g & d & -> & Hg & Hd).
        exists (seg ++ "."%char :: g), d. split_and!; [|by constructor|done].
        by rewrite <- app_assoc.
  - intros (g & d & -> & Hg & Hd).
    induction Hg as [|d0 g Hd0 Hg IH]; simpl.
    + rewrite split_dots_integer by by apply is_integer_digits.
      simpl. by rewrite Hd.
    + rewrite <- app_assoc. simpl.
      rewrite split_dots_app by by apply is_integer_digits.
      simpl. by rewrite Hd0, IH.
Qed.

Lemma Body_head w : Body w → ∃ c w', w = c :: w' ∧ is_digit c = true.
Proof.
  intros (g & d & -> & Hg & Hd).
  assert (∀ d, is_integer d = true → ∃ c d', d = c :: d' ∧ is_digit c = true) as Hint.
  { intros [|c d'] [H1 H2]%andb_true_iff; [done|].
    simpl in H2. apply andb_true_iff in H2 as [? _]. eauto. }
  destruct Hg as [|d0 g Hd0 Hg]; simpl.
  - by apply Hint.
  - destruct (Hint _ Hd0) as (c & d' & -> & Hc). simpl. eauto.
Qed.

Lemma Body_strip_leading_dot w :
  Body (strip_leading_dot w) ↔ (Body w ∨ ∃ w', w = "."%char :: w' ∧ Body w').
Proof.
  split.
  - destruct w as [|c w]; simpl; [by left|].
    destruct (Ascii.eqb_spec c ".") as [->|Hc]; [|by left].
    right. eauto.
  - intros [Hb | (w' & -> & Hb)]; [|done].
    destruct (Body_head _ Hb) as (c & w' & -> & Hc). simpl.
    by rewrite (is_digit_not_dot c Hc).
Qed.

Lemma at_end_spec k : at_end k = true ↔ k = [] ∨ k = [newline].
Proof.
  destruct k as [|c [|c' k]]; simpl.
  - split; [by left | done].
  - rewrite Ascii.eqb_eq. split; [intros ->; by right | by intros [|[= ->]]].
  - split; [done | by intros [|]].
Qed.

Lemma list_ascii_of_string_app s t :
  list_ascii_of_string (s +:+ t) = list_ascii_of_string s ++ list_ascii_of_string t.
Proof. induction s as [|c s IH]; simpl; [done | by rewrite IH]. Qed.

(** X1.  Among the strings of code points 0 to 255, [validate_oid] accepts
    exactly the dotted-decimal identifiers and the dotted-decimal
    identifiers followed by one newline.  (Strings with a code point above
    255, where [\d] also matches the digits of other scripts, are outside
    the embedding.) *)
Lemma validate_oid_language (oid : string) :
  validate_oid oid = true ↔
  dotted_decimal oid = true ∨
  ∃ oid', oid = oid' +:+ String newline EmptyString ∧ dotted_decimal oid' = true.
Proof.
  unfold validate_oid, re_match, dotted_decimal.
  rewrite match_from_Matches. split.
  - intros (w & k & Hs & [Hw Hk]%Matches_pattern).
    apply Body_strip_leading_dot, Body_split_dots in Hw.
    apply at_end_spec in Hk as [-> | ->].
    + left. by rewrite Hs, app_nil_r.
    + right. exists (string_of_list_ascii w).
      rewrite list_ascii_of_string_of_list_ascii. split; [|done].
      rewrite <- (string_of_list_ascii_of_string oid), Hs.
      rewrite <- (list_ascii_of_string_of_list_ascii w) at 1.
      change [newline] with (list_ascii_of_string (String newline EmptyString)).
      by rewrite <- list_ascii_of_string_app, string_of_list_ascii_of_string.
  - intros [H | (oid' & -> & H)].
    + exists (list_ascii_of_string oid), []. rewrite app_nil_r. split; [done|].
      apply Matches_pattern. split; [|done].
      by apply Body_strip_leading_dot, Body_split_dots.
    + exists (list_ascii_of_string oid'), [newline].
      split; [by rewrite list_ascii_of_string_app|].
      apply Matches_pattern. split; [|by apply at_end_spec; right].
      by apply Body_strip_leading_dot, Body_split_dots.
Qed.

End OidLanguage.

(** ** Shapes of the engine's results *)

Section Engine.
Import Spec.

Lemma failure_well_formed msg : well_formed (failure msg).
Proof.
  exists false. split; [done|]. split; [|done]. intros _. by exists msg.
Qed.

Lemma well_formed_tagged d : well_formed d → tagged d.
Proof. intros (b & Hb & _). by exists b. Qed.

(** Whatever the fetch loop returns is well formed, and the loop itself
    hands nothing to the stack. *)
Lemma get_responses_well_formed s d :
  outcome (get_responses s) = Returned (Some d) → well_formed d.
Proof.
  induction s as [|r rest IH|e]; simpl; [done| |done].
  destruct (errorIndication r) as [ind|]; simpl.
  { intros [= <-]. apply failure_well_formed. }
  destruct (status_value (errorStatus r) =? 0)%Z; simpl.
  - destruct (varBinds r) as [|vb vbs]; [done|]. simpl.
    intros [= <-]. exists true. split; [done|]. split; [done|].
    by intros [msg Hmsg].
  - destruct (error_position r); simpl; [|done].
    intros [= <-]. apply failure_well_formed.
Qed.

Lemma get_responses_requests s : requests (get_responses s) = [].
Proof.
  induction s as [|r rest IH|e]; simpl; [done| |done].
  destruct (errorIndication r); [done|].
  destruct (status_value (errorStatus r) =? 0)%Z; simpl.
  - by destruct (varBinds r).
  - by destruct (error_position r).
Qed.

(** The outer handlers catch every exception. *)
Lemma except_outer_total msg e :
  ∃ m, except_outer msg e = Some (mret (failure m)).
Proof. unfold except_outer. destruct (exn_class e); eauto. Qed.

(** The message of the outer handlers (lines 125-136, 214-225). *)
Lemma except_outer_eq msg e :
  except_outer msg e =
  Some (mret (failure (match exn_class e with
                       | TimeoutError => msg
                       | _ => "Connection error: " +:+ exn_str e +:+
                              ". Ensure the SNMP target is configured correctly."
                       end))).
Proof. unfold except_outer. by destruct (exn_class e). Qed.

(** [get_snmp_value] in one piece: it always returns, and it hands the stack
    one request exactly when the identifier is valid. *)
Lemma get_snmp_value_eq self stack oid :
  get_snmp_value self stack oid =
  if validate_oid oid then
    let rq := {| req_command := GetCmd; req_host := target_host self;
                 req_port := port self; req_community := community self;
                 req_oid := normalize_oid oid |} in
    Run (Returned
           match stack rq with
           | SetupFails e =>
               failure (match exn_class e with
                        | TimeoutError =>
                            "SNMP request timed out. Check if the target device is reachable or increase timeout."
                        | _ => "Connection error: " +:+ exn_str e +:+
                               ". Ensure the SNMP target is configured correctly."
                        end)
           | Responds s =>
               match outcome (get_responses s) with
               | Returned (Some d) => d
               | Returned None =>
                   failure "No data received from SNMP query. Verify the OID and target configuration."
               | Raised e =>
                   failure (match exn_class e with
                            | AttributeError =>
                                "SNMP AttributeError: " +:+ exn_str e +:+
                                ". Ensure the correct pysnmp version is installed."
                            | TimeoutError =>
                                "SNMP request timed out. Check if the target device is reachable or increase timeout."
                            | _ => "Connection error: " +:+ exn_str e +:+
                                   ". Ensure the SNMP target is configured correctly."
                            end)
               end
           end) [rq]
  else
    Run (Returned (failure
      "Invalid OID format. OID should contain only numbers and dots (e.g., 1.3.6.1.2.1.1.1.0)")) [].
Proof.
  unfold get_snmp_value, try_except, send.
  destruct (validate_oid oid); simpl; [|done].
  destruct (stack _) as [e|s]; simpl.
  { rewrite except_outer_eq. simpl. by destruct (exn_class e). }
  pose proof (get_responses_requests s) as Hr.
  unfold mbind, M_bind, try_except, except_AttributeError; simpl.
  destruct (get_responses s) as [[[d|]|e] reqs]; simpl in *; subst reqs; try done.
  destruct (exn_class e) eqn:He; simpl; try done;
    rewrite except_outer_eq, He; done.
Qed.

Lemma get_snmp_value_well_formed self stack oid :
  ∃ d, outcome (get_snmp_value self stack oid) = Returned d ∧ well_formed d.
Proof.
  rewrite get_snmp_value_eq.
  destruct (validate_oid oid); simpl.
  2: { eexists. split; [done|]. apply failure_well_formed. }
  eexists. split; [done|].
  destruct (stack _) as [e|s]; [apply failure_well_formed|].
  destruct (outcome (get_responses s)) as [[d|]|e] eqn:Hs;
    try apply failure_well_formed.
  by apply get_responses_well_formed with s.
Qed.

(** *** The walk *)

Lemma walk_responses_requests s results count max_results :
  requests (walk_responses s results count max_results) = [].
Proof.
  revert results count. induction s as [|r rest IH|e]; intros results count; simpl;
    [done| |done].
  destruct (errorIndication r); [done|].
  destruct (status_value (errorStatus r) =? 0)%Z; simpl; [|done].
  destruct (walk_varBinds _ _ _ _) as [results' count'].
  destruct (count' >=? max_results)%Z; [done | apply IH].
Qed.

(** A dictionary returned from inside the walk loop is a failure. *)
Lemma walk_responses_failure s results count max_results d :
  outcome (walk_responses s results count max_results) = Returned (inl d) →
  ∃ msg, d = failure msg.
Proof.
  revert results count. induction s as [|r rest IH|e]; intros results count; simpl;
    [done| |done].
  destruct (errorIndication r); simpl; [intros [= <-]; eauto|].
  destruct (status_value (errorStatus r) =? 0)%Z; simpl; [|intros [= <-]; eauto].
  destruct (walk_varBinds _ _ _ _) as [results' count'].
  destruct (count' >=? max_results)%Z; [done | apply IH].
Qed.

(** [count] is the length of [results] all along. *)
Lemma walk_varBinds_count vbs results count max_results :
  count = Z.of_nat (List.length results) →
  (walk_varBinds vbs results count max_results).2 =
  Z.of_nat (List.length (walk_varBinds vbs results count max_results).1).
Proof.
  revert results count. induction vbs as [|vb vbs IH]; intros results count Hc; simpl;
    [done|].
  destruct (count + 1 >=? max_results)%Z; simpl.
  - rewrite length_app. simpl. lia.
  - apply IH. rewrite length_app. simpl. lia.
Qed.

Lemma walk_responses_count s results count max_results results' count' :
  count = Z.of_nat (List.length results) →
  outcome (walk_responses s results count max_results) = Returned (inr (results', count')) →
  count' = Z.of_nat (List.length results').
Proof.
  revert results count. induction s as [|r rest IH|e]; intros results count Hc; simpl.
  - by intros [= <- <-].
  - destruct (errorIndication r); simpl; [done|].
    destruct (status_value (errorStatus r) =? 0)%Z; simpl; [|done].
    pose proof (walk_varBinds_count (varBinds r) results count max_results Hc) as Hv.
    destruct (walk_varBinds _ _ _ _) as [results1 count1]. simpl in Hv.
    destruct (count1 >=? max_results)%Z; simpl.
    + by intros [= <- <-].
    + by apply IH.
  - done.
Qed.

(** Below the cap, the inner loop appends the bindings it is given, up to
    what the cap still allows. *)
Lemma walk_varBinds_take vbs results count max_results :
  (count < max_results)%Z →
  walk_varBinds vbs results count max_results =
  (results ++ (entry_of <$> take (Z.to_nat (max_results - count)) vbs),
   (count + Z.of_nat (List.length (take (Z.to_nat (max_results - count)) vbs)))%Z).
Proof.
  revert results count. induction vbs as [|vb vbs IH]; intros results count Hlt; simpl.
  - rewrite take_nil. simpl. by rewrite app_nil_r, Z.add_0_r.
  - replace (Z.to_nat (max_results - count))
      with (S (Z.to_nat (max_results - (count + 1)))) by lia.
    simpl. destruct (count + 1 >=? max_results)%Z eqn:Hge.
    + replace (Z.to_nat (max_results - (count + 1))) with 0%nat by lia.
      rewrite take_0. done.
    + rewrite IH by lia. rewrite <- app_assoc. simpl. f_equal. lia.
Qed.

(** Below the cap, a walk that ends has collected the first bindings of the
    stream, up to what the cap still allows. *)
Lemma walk_responses_take s results count max_results results' count' :
  (count < max_results)%Z →
  outcome (walk_responses s results count max_results) = Returned (inr (results', count')) →
  results' = results ++ (entry_of <$> take (Z.to_nat (max_results - count)) (bindings s)).
Proof.
  revert results count. induction s as [|r rest IH|e]; intros results count Hlt; simpl.
  - intros [= <- <-]. by rewrite take_nil, app_nil_r.
  - destruct (errorIndication r); simpl; [done|].
    destruct (status_value (errorStatus r) =? 0)%Z; simpl; [|done].
    rewrite walk_varBinds_take by done.
    destruct (_ >=? max_results)%Z eqn:Hge; simpl.
    + intros [= <- <-]. rewrite take_app_le; [done|].
      rewrite length_take in Hge. apply Z.geb_le in Hge. lia.
    + intros H. rewrite length_take in Hge, H.
      rewrite Z.geb_leb in Hge. apply Z.leb_gt in Hge.
      apply IH in H; [|lia]. rewrite H.
      rewrite take_app_ge by lia. rewrite fmap_app, <- app_assoc.
      rewrite take_ge by lia.
      do 4 f_equal. lia.
  - done.
Qed.

(** [walk_snmp_tree] in one piece. *)
Lemma walk_snmp_tree_eq self stack oid max_results :
  walk_snmp_tree self stack oid max_results =
  if validate_oid oid then
    let rq := {| req_command := NextCmd; req_host := target_host self;
                 req_port := port self; req_community := community self;
                 req_oid := normalize_oid oid |} in
    Run (Returned
           match stack rq with
           | SetupFails e =>
               failure (match exn_class e with
                        | TimeoutError =>
                            "SNMP walk timed out. Check if the target device is reachable or increase timeout."
                        | _ => "Connection error: " +:+ exn_str e +:+
                               ". Ensure the SNMP target is configured correctly."
                        end)
           | Responds s =>
               match outcome (walk_responses s [] 0 max_results) with
               | Returned (inl d) => d
               | Returned (inr (results, count)) =>
                   {[ "success" := VBool true;
                      "results" := VList results;
                      "count" := VInt count ]}
               | Raised e =>
                   failure (match exn_class e with
                            | AttributeError =>
                                "SNMP AttributeError: " +:+ exn_str e +:+
                                ". Ensure the correct pysnmp version is installed."
                            | TimeoutError =>
                                "SNMP walk timed out. Check if the target device is reachable or increase timeout."
                            | _ => "Connection error: " +:+ exn_str e +:+
                                   ". Ensure the SNMP target is configured correctly."
                            end)
               end
           end) [rq]
  else
    Run (Returned (failure "Invalid OID format")) [].
Proof.
  unfold walk_snmp_tree, try_except, send.
  destruct (validate_oid oid); simpl; [|done].
  destruct (stack _) as [e|s]; simpl.
  { rewrite except_outer_eq. simpl. by destruct (exn_class e). }
  pose proof (walk_responses_requests s [] 0 max_results) as Hr.
  unfold mbind, M_bind, try_except, except_AttributeError; simpl.
  destruct (walk_responses s [] 0 max_results) as [[[d|[results count]]|e] reqs];
    simpl in *; subst reqs; try done.
  destruct (exn_class e) eqn:He; simpl; try done;
    rewrite except_outer_eq, He; done.
Qed.

End Engine.

(** ** The engine against any stack *)

Section FullEngine.

Lemma Full_get_responses_requests s : Full.requests (Full.get_responses s) = [].
Proof.
  induction s as [|r rest IH|t]; simpl; [done| |done].
  destruct (errorIndication r); [done|].
  destruct (status_value (errorStatus r) =? 0)%Z; simpl.
  - by destruct (varBinds r).
  - by destruct (error_position r).
Qed.

Lemma Full_get_responses_shape s d :
  Full.outcome (Full.get_responses s) = Full.Returns (Some d) → Full.query_result d.
Proof.
  induction s as [|r rest IH|t]; simpl; [done| |done].
  destruct (errorIndication r) as [ind|]; simpl.
  { intros [= <-]. left. eauto. }
  destruct (status_value (errorStatus r) =? 0)%Z; simpl.
  - destruct (varBinds r) as [|vb vbs]; [done|]. simpl.
    intros [= <-]. right. eauto.
  - destruct (error_position r); simpl; [|done].
    intros [= <-]. left. eauto.
Qed.


Lemma Full_except_outer_eq msg e :
  Full.except_outer msg e =
  Some (mret (failure (match exn_class e with
                       | TimeoutError => msg
                       | _ => "Connection error: " +:+ exn_str e +:+
                              ". Ensure the SNMP target is configured correctly."
                       end))).
Proof. unfold Full.except_outer. by destruct (exn_class e). Qed.

(** [Full.get_snmp_value] in one piece. *)
Lemma Full_get_snmp_value_eq self stack oid :
  Full.get_snmp_value self stack oid =
  if validate_oid oid then
    Full.Run
      match stack (get_request self oid) with
      | Full.SetupFails (Full.BaseException b) => Full.Raises (Full.BaseException b)
      | Full.SetupFails (Full.Exception e) =>
          Full.Returns
            (failure (match exn_class e with
                      | TimeoutError =>
                          "SNMP request timed out. Check if the target device is reachable or increase timeout."
                      | _ => "Connection error: " +:+ exn_str e +:+
                             ". Ensure the SNMP target is configured correctly."
                      end))
      | Full.Responds s =>
          match Full.outcome (Full.get_responses s) with
          | Full.Returns (Some d) => Full.Returns d
          | Full.Returns None =>
              Full.Returns (failure
                "No data received from SNMP query. Verify the OID and target configuration.")
          | Full.Raises (Full.BaseException b) => Full.Raises (Full.BaseException b)
          | Full.Raises (Full.Exception e) =>
              Full.Returns
                (failure (match exn_class e with
                          | AttributeError =>
                              "SNMP AttributeError: " +:+ exn_str e +:+
                              ". Ensure the correct pysnmp version is installed."
                          | TimeoutError =>
                              "SNMP request timed out. Check if the target device is reachable or increase timeout."
                          | _ => "Connection error: " +:+ exn_str e +:+
                                 ". Ensure the SNMP target is configured correctly."
                          end))
          end
      end [get_request self oid]
  else
    Full.Run (Full.Returns (failure
      "Invalid OID format. OID should contain only numbers and dots (e.g., 1.3.6.1.2.1.1.1.0)")) [].
Proof.
  unfold Full.get_snmp_value, Full.try_except, Full.send, get_request.
  destruct (validate_oid oid); simpl; [|done].
  destruct (stack _) as [[e|b]|s]; simpl.
  { rewrite Full_except_outer_eq. simpl. by destruct (exn_class e). }
  { done. }
  pose proof (Full_get_responses_requests s) as Hr.
  unfold mbind, Full.M_bind, Full.try_except, Full.except_AttributeError; simpl.
  destruct (Full.get_responses s) as [[[d|]|[e|b]] reqs]; simpl in *; subst reqs;
    try done.
  destruct (exn_class e) eqn:He; simpl; try done;
    rewrite Full_except_outer_eq, He; done.
Qed.



(** *** The walk *)







Lemma Full_get_snmp_value_shape self stack oid d :
  Full.outcome (Full.get_snmp_value self stack oid) = Full.Returns d →
  Full.query_result d.
Proof.
  rewrite Full_get_snmp_value_eq.
  destruct (validate_oid oid); simpl; [|intros [= <-]; left; eauto].
  destruct (stack _) as [[e|b]|s]; [intros [= <-]; left; eauto|done|].
  destruct (Full.outcome (Full.get_responses s)) as [[d'|]|[e|b]] eqn:Hs;
    [|intros [= <-]; left; eauto|intros [= <-]; left; eauto|done].
  intros [= <-]. by apply Full_get_responses_shape with s.
Qed.

End FullEngine.

(* ================================================================== *)
(** * Part III: the claims *)
(* ================================================================== *)



(** C2, amended.  For every identifier and every N >= 1, a walk with
    [max_results = N] that returns a success has collected exactly the
    first N bindings of the agent's stream (all of them if there are fewer),
    in traversal order, and its count is their number, at most N. *)
Theorem walk_snmp_tree_cap (self : SNMPManager) (stack : Stack) (oid : string)
    (N : Z) (d : dict) :
  (1 ≤ N)%Z →
  outcome (walk_snmp_tree self stack oid N) = Returned d →
  d !! "success" = Some (VBool true) →
  ∃ s,
    stack {| req_command := NextCmd; req_host := target_host self;
             req_port := port self; req_community := community self;
             req_oid := normalize_oid oid |} = Responds s ∧
    let first := take (Z.to_nat N) (Spec.bindings s) in
    d = {[ "success" := VBool true;
           "results" := VList (Spec.entry_of <$> first);
           "count" := VInt (Z.of_nat (List.length first)) ]} ∧
    (Z.of_nat (List.length first) ≤ N)%Z.
Proof.
  intros HN. rewrite walk_snmp_tree_eq.
  destruct (validate_oid oid); simpl; [|by intros [= <-]].
  destruct (stack _) as [e|s]; [by intros [= <-]|].
  destruct (outcome (walk_responses s [] 0 N)) as [[d'|[results count]]|e] eqn:Hs.
  - apply walk_responses_failure in Hs as [msg ->]. by intros [= <-].
  - intros [= <-] _. exists s. split; [done|]. simpl.
    pose proof (walk_responses_count _ _ _ _ _ _ eq_refl Hs) as Hc.
    apply walk_responses_take in Hs; [|lia]. simpl in Hs.
    rewrite Z.sub_0_r in Hs. subst results count.
    rewrite length_fmap, length_take. split; [done | lia].
  - by intros [= <-].
Qed.

(** The scenario of the specification: five entries, a cap of three. *)
Lemma walk_snmp_tree_cap_witness :
  ∃ s,
    Sample.answering Sample.five
      {| req_command := NextCmd; req_host := "192.168.137.130"; req_port := 161;
         req_community := "public"; req_oid := ".1.3.6.1.2.1.2.2.1.2" |} = Responds s ∧
    let first := take 3 (Spec.bindings s) in
    ({[ "success" := VBool true;
        "results" := VList (Spec.entry_of <$>
                      [Sample.binding "1"; Sample.binding "2"; Sample.binding "3"]);
        "count" := VInt 3 ]} : dict) =
    {[ "success" := VBool true;
       "results" := VList (Spec.entry_of <$> first);
       "count" := VInt (Z.of_nat (List.length first)) ]} ∧
    (Z.of_nat (List.length first) ≤ 3)%Z.
Proof.
  apply (walk_snmp_tree_cap Sample.manager (Sample.answering Sample.five)
           "1.3.6.1.2.1.2.2.1.2" 3).
  - lia.
  - reflexivity.
  - reflexivity.
Defined.

(** C2 as stated fails: with [max_results = -1] and an agent that has
    nothing under the subtree, the walk succeeds with count 0, and 0 is not
    at most -1. *)
Lemma walk_snmp_tree_negative_cap :
  outcome (walk_snmp_tree Sample.manager (Sample.answering Exhausted) "1.3.6.1" (-1)) =
    Returned {[ "success" := VBool true; "results" := VList []; "count" := VInt 0 ]} ∧
  ¬ (0 ≤ -1)%Z.
Proof. split; [reflexivity | lia]. Qed.

(** *** Resolving the error index (line 99) *)

(** Index 0, "no particular binding", gives the fallback. *)
Lemma error_position_zero r :
  errorIndex r = 0%Z → error_position r = Returned "?".
Proof. unfold error_position. by intros ->. Qed.

(** An index within the list gives the bound identifier, or the fallback
    when that identifier is false. *)
Lemma error_position_in_range r vb :
  (1 ≤ errorIndex r)%Z →
  varBinds r !! Z.to_nat (errorIndex r - 1) = Some vb →
  error_position r =
  Returned (if obj_truthy (fst vb) then obj_str (fst vb) else "?").
Proof.
  intros Hi Hvb. unfold error_position, py_index.
  apply lookup_lt_Some in Hvb as Hlt.
  replace (errorIndex r =? 0)%Z with false by lia.
  replace (errorIndex r - 1 <? 0)%Z with false by lia.
  replace (0 <=? errorIndex r - 1)%Z with true by lia.
  replace (errorIndex r - 1 <? Z.of_nat (List.length (varBinds r)))%Z with true by lia.
  simpl. by rewrite Hvb.
Qed.

(** An index past the end of the list raises [IndexError]: the fallback is
    not reached. *)
Lemma error_position_past_end r :
  (Z.of_nat (List.length (varBinds r)) < errorIndex r)%Z →
  error_position r =
  Raised {| exn_class := IndexError; exn_str := "list index out of range" |}.
Proof.
  intros Hi. unfold error_position, py_index.
  replace (errorIndex r =? 0)%Z with false by lia.
  replace (errorIndex r - 1 <? 0)%Z with false by lia.
  replace (errorIndex r - 1 <? Z.of_nat (List.length (varBinds r)))%Z with false by lia.
  by rewrite andb_false_r.
Qed.

(** C3 (the code departs from it).  A reply with error status noSuchName
    whose error index, 2, points past its single binding: the lookup raises
    [IndexError], the outer handler catches it, and the failure message is the
    generic connection error; it names neither the status nor ['?']. *)
Theorem get_snmp_value_error_index_past_end :
  outcome (get_snmp_value Sample.manager
             (Sample.answering (Yield Sample.bad_index Exhausted)) "1.3.6.1") =
  Returned (failure
    "Connection error: list index out of range. Ensure the SNMP target is configured correctly.").
Proof. reflexivity. Qed.

(** With a cap of zero or less, the inner loop still takes the first binding
    it is given: the cap is only looked at after the append. *)
Lemma walk_varBinds_nonpositive_cap vb vbs max_results :
  (max_results ≤ 0)%Z →
  walk_varBinds (vb :: vbs) [] 0 max_results = ([Spec.entry_of vb], 1%Z).
Proof.
  intros Hmax. unfold walk_varBinds.
  assert ((0 + 1 >=? max_results)%Z = true) as -> by lia.
  reflexivity.
Qed.

(** C4 (the code departs from it).  With [max_results = 0] and an agent that
    answers with one binding, the walk appends the binding before it looks
    at the cap: it succeeds with count 1 and one entry. *)
Theorem walk_snmp_tree_zero_cap :
  outcome (walk_snmp_tree Sample.manager (Sample.answering Sample.one) "1.3.6.1" 0) =
  Returned {[ "success" := VBool true;
              "results" := VList [Spec.entry_of (Sample.binding "1")];
              "count" := VInt 1 ]}.
Proof. reflexivity. Qed.

(** C5 (the code departs from it).  ["1.3"] followed by a newline is not a
    dotted-decimal identifier, and [validate_oid] accepts it: [$] also
    matches just before a final newline. *)
Theorem validate_oid_trailing_newline :
  validate_oid (Sample.with_newline "1.3") = true ∧
  Spec.dotted_decimal (Sample.with_newline "1.3") = false.
Proof. split; reflexivity. Qed.

(** *** Reconfiguration *)

Lemma py_int_raises_ValueError p e : py_int p = Raised e → exn_class e = ValueError.
Proof.
  unfold py_int. destruct (PyInt.parse _); [done|]. by intros [= <-].
Qed.

Lemma update_snmp_config_current w bot host community port :
  current_manager (update_snmp_config w bot host community port) =
  Some {| target_host := host; community := community; port := port |}.
Proof.
  unfold current_manager, update_snmp_config. simpl.
  by rewrite lookup_app_r, Nat.sub_diag.
Qed.

Lemma update_snmp_config_preserves w bot host community port :
  Spec.preserves_objects w (update_snmp_config w bot host community port).
Proof.
  intros self m Hm. simpl. by apply lookup_app_l_Some.
Qed.

(** C6, amended.  With a bot registered, [snmp_config] rejects the port
    argument, with the invalid-port reply, exactly when [int()] does not
    parse it; a port that parses is installed as it is, whether or not it
    lies in 1..65535. *)
Theorem snmp_config_port (w : World) (bot : TelegramBot)
    (host community p : string) (rest : list string) :
  bot_instance w = Some bot →
  snmp_config w (host :: community :: p :: rest) =
  match py_int p with
  | Raised _ => (w, [ReplyInvalidPort])
  | Returned z =>
      (update_snmp_config w bot host community z, [ReplyConfigUpdated host community z])
  end.
Proof.
  intros Hbot. unfold snmp_config. simpl.
  destruct (py_int p) as [z|e] eqn:Hp.
  - by rewrite Hbot.
  - by rewrite (py_int_raises_ValueError p e Hp).
Qed.

Lemma snmp_config_port_witness :
  snmp_config Sample.world ["10.0.0.1"; "private"; "1161"] =
  (update_snmp_config Sample.world
     {| token := "t"; snmp_manager := 0; is_running := true |} "10.0.0.1" "private" 1161,
   [ReplyConfigUpdated "10.0.0.1" "private" 1161]).
Proof.
  apply (snmp_config_port Sample.world
           {| token := "t"; snmp_manager := 0; is_running := true |}
           "10.0.0.1" "private" "1161" []).
  reflexivity.
Defined.

(** C6 as stated fails: port 70000 is outside 1..65535, and [snmp_config]
    installs it and reports the update. *)
Lemma snmp_config_installs_port_70000 :
  current_manager (snmp_config Sample.world ["10.0.0.1"; "public"; "70000"]).1 =
    Some {| target_host := "10.0.0.1"; community := "public"; port := 70000 |} ∧
  (snmp_config Sample.world ["10.0.0.1"; "public"; "70000"]).2 =
    [ReplyConfigUpdated "10.0.0.1" "public" 70000] ∧
  ¬ Spec.port_in_range 70000.
Proof. split_and!; [reflexivity | reflexivity | unfold Spec.port_in_range; lia]. Qed.

(** C7.  When [int()] does not parse the port argument, [snmp_config]
    answers with the invalid-port reply and the world is left as it was:
    same manager objects, same reference from the bot. *)
Theorem snmp_config_non_numeric_port (w : World) (host community p : string)
    (rest : list string) (e : Exn) :
  py_int p = Raised e →
  snmp_config w (host :: community :: p :: rest) = (w, [ReplyInvalidPort]).
Proof.
  intros Hp. unfold snmp_config. simpl.
  by rewrite Hp, (py_int_raises_ValueError p e Hp).
Qed.

Lemma snmp_config_non_numeric_port_witness :
  snmp_config Sample.world ["10.0.0.1"; "public"; "abc"] =
  (Sample.world, [ReplyInvalidPort]).
Proof.
  apply (snmp_config_non_numeric_port Sample.world "10.0.0.1" "public" "abc" []
           {| exn_class := ValueError;
              exn_str := "invalid literal for int() with base 10" |}).
  reflexivity.
Defined.

(** C8.  For an identifier that fails validation, [get_snmp_value] returns
    the failure that names the expected format and hands nothing to the
    stack; the whole run is the same for any two managers and stacks. *)
Theorem get_snmp_value_invalid_oid (self : SNMPManager) (stack : Stack) (oid : string) :
  validate_oid oid = false →
  get_snmp_value self stack oid =
    Run (Returned (failure
      "Invalid OID format. OID should contain only numbers and dots (e.g., 1.3.6.1.2.1.1.1.0)"))
        [] ∧
  ∀ self' stack', get_snmp_value self' stack' oid = get_snmp_value self stack oid.
Proof.
  intros Hv. split.
  - by rewrite get_snmp_value_eq, Hv.
  - intros self' stack'. by rewrite !get_snmp_value_eq, Hv.
Qed.

Lemma get_snmp_value_invalid_oid_witness :
  get_snmp_value Sample.manager (Sample.answering Sample.five) "not-an-oid" =
    Run (Returned (failure
      "Invalid OID format. OID should contain only numbers and dots (e.g., 1.3.6.1.2.1.1.1.0)"))
        [] ∧
  ∀ self' stack', get_snmp_value self' stack' "not-an-oid" =
                  get_snmp_value Sample.manager (Sample.answering Sample.five) "not-an-oid".
Proof.
  apply (get_snmp_value_invalid_oid Sample.manager (Sample.answering Sample.five)
           "not-an-oid").
  reflexivity.
Defined.

(** C9.  A reconfiguration that goes through (a bot is registered and the
    port argument, when there is one, parses) makes the bot refer to a
    manager whose three fields are exactly the host given, the community
    given or "public", and the port given or 161; the next query runs on
    that manager and sends its request to that target; and every manager
    object that existed before is unchanged, so a call in flight, which
    holds a reference to the old one, goes on with what it started with. *)
Theorem snmp_config_replaces (w : World) (bot : TelegramBot) (host : string)
    (rest : list string) (port : Z) :
  bot_instance w = Some bot →
  match rest !! 1%nat with Some p => py_int p | None => Returned 161%Z end = Returned port →
  let w' := (snmp_config w (host :: rest)).1 in
  let new := {| target_host := host;
                community := default "public" (rest !! 0%nat);
                port := port |} in
  current_manager w' = Some new ∧
  (∀ stack oid, query w' stack oid = Some (get_snmp_value new stack oid)) ∧
  (∀ stack oid,
     requests (get_snmp_value new stack oid) =
     if validate_oid oid then
       [{| req_command := GetCmd; req_host := host; req_port := port;
           req_community := default "public" (rest !! 0%nat);
           req_oid := normalize_oid oid |}]
     else []) ∧
  Spec.preserves_objects w w'.
Proof.
  intros Hbot Hport. unfold snmp_config. simpl.
  rewrite Hport, Hbot. simpl. split_and!.
  - apply update_snmp_config_current.
  - intros stack oid. unfold query. by rewrite update_snmp_config_current.
  - intros stack oid. rewrite get_snmp_value_eq. by destruct (validate_oid oid).
  - apply update_snmp_config_preserves.
Qed.

Lemma snmp_config_replaces_witness :
  let w' := (snmp_config Sample.world ["10.0.0.1"]).1 in
  let new := {| target_host := "10.0.0.1"; community := "public"; port := 161 |} in
  current_manager w' = Some new ∧
  (∀ stack oid, query w' stack oid = Some (get_snmp_value new stack oid)) ∧
  (∀ stack oid,
     requests (get_snmp_value new stack oid) =
     if validate_oid oid then
       [{| req_command := GetCmd; req_host := "10.0.0.1"; req_port := 161;
           req_community := "public"; req_oid := normalize_oid oid |}]
     else []) ∧
  Spec.preserves_objects Sample.world w'.
Proof.
  apply (snmp_config_replaces Sample.world
           {| token := "t"; snmp_manager := 0; is_running := true |} "10.0.0.1" [] 161).
  - reflexivity.
  - reflexivity.
Defined.

(** C10.  Every call of [get_snmp_value] and of [walk_snmp_tree] returns a
    dictionary with a boolean "success" and with an "error" string exactly
    when "success" is false; and in every successful walk result "count" is
    the length of "results". *)
Theorem results_well_formed (self : SNMPManager) (stack : Stack) (oid : string)
    (max_results : Z) :
  (∃ d, outcome (get_snmp_value self stack oid) = Returned d ∧ Spec.well_formed d) ∧
  (∃ d, outcome (walk_snmp_tree self stack oid max_results) = Returned d ∧
        Spec.well_formed d ∧ Spec.count_is_length d).
Proof.
  split; [apply get_snmp_value_well_formed|].
  rewrite walk_snmp_tree_eq.
  assert (∀ msg, Spec.count_is_length (failure msg)) as Hfail by (by intros msg Hs).
  destruct (validate_oid oid); simpl.
  2: { eexists. split_and!; [done | apply failure_well_formed | apply Hfail]. }
  eexists. split; [done|].
  destruct (stack _) as [e|s]; [split; [apply failure_well_formed | apply Hfail]|].
  destruct (outcome (walk_responses s [] 0 max_results))
    as [[d|[results count]]|e] eqn:Hs.
  - apply walk_responses_failure in Hs as [msg ->].
    split; [apply failure_well_formed | apply Hfail].
  - apply walk_responses_count in Hs as ->; [|done]. split.
    + exists true. split; [done|]. split; [done|]. by intros [msg Hmsg].
    + intros _. by exists results.
  - split; [apply failure_well_formed | apply Hfail].
Qed.

(* ================================================================== *)
(** * Part IV: more of the program *)
(* ================================================================== *)

(** ** Validation and normalisation *)

Section Normalise.
Import Re Spec.

Lemma validate_oid_Body (oid : string) :
  validate_oid oid = true ↔
  ∃ w k, list_ascii_of_string oid = w ++ k ∧
         Body (strip_leading_dot w) ∧ at_end k = true.
Proof.
  unfold validate_oid, re_match. rewrite match_from_Matches.
  split; intros (w & k & Hs & H); exists w, k; split; try done.
  - apply Matches_pattern in H as [Hw Hk]. split; [|done].
    by apply Body_strip_leading_dot.
  - destruct H as [Hw Hk]. apply Matches_pattern. split; [|done].
    by apply Body_strip_leading_dot.
Qed.

Lemma Body_not_nil : ¬ Body [].
Proof. intros (c & w' & Hw & _)%Body_head. done. Qed.

Lemma Body_strip_id w : Body w → strip_leading_dot w = w.
Proof.
  intros (c & w' & -> & Hc)%Body_head. simpl.
  by rewrite (is_digit_not_dot c Hc).
Qed.

Lemma prefix_dot (oid : string) :
  String.prefix "." oid = true ↔ ∃ s, oid = String "."%char s.
Proof.
  destruct oid as [|c s].
  - split; [done | by intros [s Hs]].
  - change (String.prefix "." (String c s))
      with (if ascii_dec "." c then String.prefix "" s else false).
    destruct (ascii_dec "." c) as [<-|Hc].
    + split; [eauto|]. intros _. by destruct s.
    + split; [done|]. intros [s' [= Hc' _]]. by subst c.
Qed.

Lemma normalize_oid_prefix oid : String.prefix "." (normalize_oid oid) = true.
Proof.
  unfold normalize_oid. destruct (String.prefix "." oid) eqn:Hp; [done|].
  apply prefix_dot. by exists oid.
Qed.

Lemma normalize_oid_idempotent oid :
  normalize_oid (normalize_oid oid) = normalize_oid oid.
Proof.
  unfold normalize_oid at 1. by rewrite normalize_oid_prefix.
Qed.

Lemma validate_oid_normalize oid :
  validate_oid (normalize_oid oid) = validate_oid oid.
Proof.
  unfold normalize_oid. destruct (String.prefix "." oid) eqn:Hp; [done|].
  apply Bool.eq_iff_eq_true. rewrite !validate_oid_Body. simpl. split.
  - intros (w & k & Hs & Hw & Hk). destruct w as [|c w].
    { by apply Body_not_nil in Hw. }
    simpl in Hs. injection Hs as <- Hs. simpl in Hw.
    exists w, k. split_and!; [done| |done].
    by rewrite Body_strip_id.
  - intros (w & k & Hs & Hw & Hk).
    assert (strip_leading_dot w = w) as Hid.
    { destruct w as [|c w]; [done|]. simpl.
      destruct (Ascii.eqb_spec c ".") as [->|]; [|done].
      assert (String.prefix "." oid = true) as Hp'; [|congruence].
      apply prefix_dot. exists (string_of_list_ascii (w ++ k)).
      by rewrite <- (string_of_list_ascii_of_string oid), Hs. }
    rewrite Hid in Hw.
    exists ("."%char :: w), k. split_and!; [unfold String.append; by rewrite Hs|done|done].
Qed.

(** X2.  [normalize_oid] gives a string with a leading dot, doing it twice
    changes nothing, and it neither makes an identifier valid nor invalid. *)
Theorem normalize_oid_sound (oid : string) :
  String.prefix "." (normalize_oid oid) = true ∧
  normalize_oid (normalize_oid oid) = normalize_oid oid ∧
  validate_oid (normalize_oid oid) = validate_oid oid.
Proof.
  split_and!;
    [apply normalize_oid_prefix | apply normalize_oid_idempotent
    | apply validate_oid_normalize].
Qed.

(** X3.  The leading dot is optional for the callers: a fetch and a walk of
    an identifier run exactly as those of its normalised form, with the same
    request and the same result. *)
Theorem leading_dot_optional (self : SNMPManager) (stack : Stack) (oid : string)
    (max_results : Z) :
  get_snmp_value self stack (normalize_oid oid) = get_snmp_value self stack oid ∧
  walk_snmp_tree self stack (normalize_oid oid) max_results =
    walk_snmp_tree self stack oid max_results.
Proof.
  rewrite !get_snmp_value_eq, !walk_snmp_tree_eq.
  by rewrite validate_oid_normalize, normalize_oid_idempotent.
Qed.

End Normalise.

(** ** The fetch, case by case *)

Section Fetch.
Import Agent.

Lemma clean_reply_inv r :
  clean_reply r = true →
  errorIndication r = None ∧ (status_value (errorStatus r) =? 0)%Z = true.
Proof. unfold clean_reply. by destruct (errorIndication r). Qed.

(** Clean replies without bindings are passed over. *)
Lemma get_responses_silent s0 tail :
  silent s0 = true → get_responses (followed_by s0 tail) = get_responses tail.
Proof.
  induction s0 as [|r rest IH|e]; simpl; [done| |done].
  intros [[Hr Hv%bool_decide_eq_true]%andb_true_iff Hs]%andb_true_iff.
  apply clean_reply_inv in Hr as [-> ->]. simpl. rewrite Hv. by apply IH.
Qed.

(** X4.  The fetch answers with the first binding of the first reply that
    has one: clean replies without bindings before it are passed over, its
    other bindings and everything after it are not looked at. *)
Theorem get_snmp_value_first_binding (self : SNMPManager) (stack : Stack)
    (oid : string) (s0 : Stream) (r : Response) (rest : Stream)
    (vb : PyObj * PyObj) (vbs : list (PyObj * PyObj)) :
  validate_oid oid = true →
  stack (get_request self oid) = Responds (followed_by s0 (Yield r rest)) →
  silent s0 = true →
  clean_reply r = true →
  varBinds r = vb :: vbs →
  outcome (get_snmp_value self stack oid) =
  Returned {[ "success" := VBool true;
              "oid" := VStr (obj_str vb.1);
              "value" := VStr (obj_str vb.2);
              "type" := VStr (obj_type vb.2) ]}.
Proof.
  intros Hv Hstack Hs0 Hr Hvb. unfold get_request in Hstack.
  rewrite get_snmp_value_eq, Hv. simpl. rewrite Hstack.
  rewrite get_responses_silent by done. simpl.
  apply clean_reply_inv in Hr as [-> ->]. simpl. by rewrite Hvb.
Qed.

Lemma get_snmp_value_first_binding_witness :
  outcome (get_snmp_value Sample.manager
             (Sample.answering (Yield Fixture.empty_reply Fixture.two_by_two))
             "1.3.6.1.2.1.2.2.1.2") =
  Returned {[ "success" := VBool true;
              "oid" := VStr "1.3.6.1.2.1.2.2.1.2.1";
              "value" := VStr "eth1";
              "type" := VStr "OctetString" ]}.
Proof.
  apply (get_snmp_value_first_binding Sample.manager _ "1.3.6.1.2.1.2.2.1.2"
           (Yield Fixture.empty_reply Exhausted)
           (Sample.ok [Sample.binding "1"; Sample.binding "2"])
           (Yield (Sample.ok [Sample.binding "3"; Sample.binding "4"]) Exhausted)
           (Sample.binding "1") [Sample.binding "2"]); reflexivity.
Defined.

(** X5.  When the agent's replies are all clean and none carries a binding
    (in particular when there is no reply at all), the fetch fails with the
    no-data message. *)
Theorem get_snmp_value_no_data (self : SNMPManager) (stack : Stack)
    (oid : string) (s : Stream) :
  validate_oid oid = true →
  stack (get_request self oid) = Responds s →
  silent s = true →
  outcome (get_snmp_value self stack oid) =
  Returned (failure
    "No data received from SNMP query. Verify the OID and target configuration.").
Proof.
  intros Hv Hstack Hs. unfold get_request in Hstack.
  rewrite get_snmp_value_eq, Hv. simpl. rewrite Hstack.
  assert (get_responses s = mret None) as ->; [|done].
  clear Hstack. induction s as [|r rest IH|e]; simpl in *; [done| |done].
  apply andb_true_iff in Hs as [[Hr Hvb%bool_decide_eq_true]%andb_true_iff Hs].
  apply clean_reply_inv in Hr as [-> ->]. simpl. rewrite Hvb. by apply IH.
Qed.

Lemma get_snmp_value_no_data_witness :
  outcome (get_snmp_value Sample.manager
             (Sample.answering (Yield Fixture.empty_reply Exhausted)) "1.3.6.1") =
  Returned (failure
    "No data received from SNMP query. Verify the OID and target configuration.").
Proof.
  apply (get_snmp_value_no_data Sample.manager _ "1.3.6.1"
           (Yield Fixture.empty_reply Exhausted)); reflexivity.
Defined.

(** X6.  The same [AttributeError] is reported differently according to
    where it is raised: while the transport and the command are built it
    ends as the generic connection error; while the command is awaited or
    iterated it ends as the message that blames the pysnmp version. *)
Theorem get_snmp_value_AttributeError (self : SNMPManager) (stack1 stack2 : Stack)
    (oid : string) (e : Exn) (s0 : Stream) :
  validate_oid oid = true →
  exn_class e = AttributeError →
  stack1 (get_request self oid) = SetupFails e →
  stack2 (get_request self oid) = Responds (followed_by s0 (Raise e)) →
  silent s0 = true →
  outcome (get_snmp_value self stack1 oid) =
    Returned (failure ("Connection error: " +:+ exn_str e +:+
                       ". Ensure the SNMP target is configured correctly.")) ∧
  outcome (get_snmp_value self stack2 oid) =
    Returned (failure ("SNMP AttributeError: " +:+ exn_str e +:+
                       ". Ensure the correct pysnmp version is installed.")).
Proof.
  intros Hv He H1 H2 Hs0. unfold get_request in *.
  rewrite !get_snmp_value_eq, Hv. simpl. rewrite H1, H2, He.
  split; [done|]. rewrite get_responses_silent by done. simpl. by rewrite He.
Qed.

Lemma get_snmp_value_AttributeError_witness :
  outcome (get_snmp_value Sample.manager (λ _, SetupFails Fixture.attribute_error)
             "1.3.6.1") =
    Returned (failure
      "Connection error: 'coroutine' object has no attribute 'transport'. Ensure the SNMP target is configured correctly.") ∧
  outcome (get_snmp_value Sample.manager
             (Sample.answering (Raise Fixture.attribute_error)) "1.3.6.1") =
    Returned (failure
      "SNMP AttributeError: 'coroutine' object has no attribute 'transport'. Ensure the correct pysnmp version is installed.").
Proof.
  apply (get_snmp_value_AttributeError Sample.manager
           (λ _, SetupFails Fixture.attribute_error)
           (Sample.answering (Raise Fixture.attribute_error))
           "1.3.6.1" Fixture.attribute_error Exhausted); reflexivity.
Defined.

(** X7.  On a reply with an error status, the failure names the status and
    the position: ['?'] when the error index is 0, and otherwise, when the
    index is within the bindings, the identifier bound there (['?'] again
    if that identifier is false). *)
Theorem get_snmp_value_error_status (self : SNMPManager) (stack : Stack)
    (oid : string) (s0 : Stream) (r : Response) (rest : Stream) :
  validate_oid oid = true →
  stack (get_request self oid) = Responds (followed_by s0 (Yield r rest)) →
  silent s0 = true →
  errorIndication r = None →
  status_value (errorStatus r) ≠ 0%Z →
  (errorIndex r = 0%Z →
   outcome (get_snmp_value self stack oid) =
   Returned (failure ("SNMP Error: " +:+ status_pretty (errorStatus r) +:+ " at ?"))) ∧
  (∀ vb, (1 ≤ errorIndex r)%Z →
         varBinds r !! Z.to_nat (errorIndex r - 1) = Some vb →
   outcome (get_snmp_value self stack oid) =
   Returned (failure ("SNMP Error: " +:+ status_pretty (errorStatus r) +:+ " at " +:+
                      (if obj_truthy vb.1 then obj_str vb.1 else "?")))).
Proof.
  intros Hv Hstack Hs0 Hind Hst. unfold get_request in Hstack.
  rewrite get_snmp_value_eq, Hv. simpl. rewrite Hstack.
  rewrite get_responses_silent by done. simpl. rewrite Hind.
  replace (status_value (errorStatus r) =? 0)%Z with false by lia. simpl.
  split.
  - intros Hi. by rewrite error_position_zero.
  - intros vb Hi Hvb. by rewrite (error_position_in_range r vb).
Qed.

Lemma get_snmp_value_error_status_witness :
  outcome (get_snmp_value Sample.manager
             (Sample.answering (Yield Fixture.status_first Exhausted)) "1.3.6.1") =
  Returned (failure "SNMP Error: noSuchName at 1.3.6.1.2.1.2.2.1.2.1").
Proof.
  refine (proj2 (get_snmp_value_error_status Sample.manager _ "1.3.6.1"
            Exhausted Fixture.status_first Exhausted _ _ _ _ _)
            (Sample.binding "1") _ _);
    [reflexivity | reflexivity | reflexivity | reflexivity | done | done | reflexivity].
Defined.

(** X8.  On a reply with an error status whose error index points past the
    bindings, the lookup raises [IndexError] and the fetch fails with the
    generic connection error, whatever the status was. *)
Theorem get_snmp_value_error_index_out_of_range (self : SNMPManager) (stack : Stack)
    (oid : string) (s0 : Stream) (r : Response) (rest : Stream) :
  validate_oid oid = true →
  stack (get_request self oid) = Responds (followed_by s0 (Yield r rest)) →
  silent s0 = true →
  errorIndication r = None →
  status_value (errorStatus r) ≠ 0%Z →
  (Z.of_nat (List.length (varBinds r)) < errorIndex r)%Z →
  outcome (get_snmp_value self stack oid) =
  Returned (failure
    "Connection error: list index out of range. Ensure the SNMP target is configured correctly.").
Proof.
  intros Hv Hstack Hs0 Hind Hst Hi. unfold get_request in Hstack.
  rewrite get_snmp_value_eq, Hv. simpl. rewrite Hstack.
  rewrite get_responses_silent by done. simpl. rewrite Hind.
  replace (status_value (errorStatus r) =? 0)%Z with false by lia. simpl.
  by rewrite error_position_past_end.
Qed.

Lemma get_snmp_value_error_index_out_of_range_witness :
  outcome (get_snmp_value Sample.manager
             (Sample.answering (Yield Fixture.empty_reply (Yield Sample.bad_index Exhausted)))
             "1.3.6.1") =
  Returned (failure
    "Connection error: list index out of range. Ensure the SNMP target is configured correctly.").
Proof.
  apply (get_snmp_value_error_index_out_of_range Sample.manager _ "1.3.6.1"
           (Yield Fixture.empty_reply Exhausted) Sample.bad_index Exhausted);
    [reflexivity | reflexivity | reflexivity | reflexivity | done | simpl; lia].
Defined.

End Fetch.

(** ** The walk, case by case *)

Section Walk.
Import Agent Spec.

(** Below the cap and with room for all of them, the bindings of a clean
    stream are all collected, and the walk goes on with what follows. *)
Lemma walk_responses_clean_below s tail results count max_results :
  clean s = true →
  (count + Z.of_nat (List.length (bindings s)) < max_results)%Z →
  walk_responses (followed_by s tail) results count max_results =
  walk_responses tail (results ++ (entry_of <$> bindings s))
    (count + Z.of_nat (List.length (bindings s))) max_results.
Proof.
  revert results count. induction s as [|r rest IH|e]; intros results count; simpl.
  - intros _ _. by rewrite app_nil_r, Z.add_0_r.
  - intros [Hr Hs]%andb_true_iff Hlt. rewrite length_app in Hlt.
    apply clean_reply_inv in Hr as [-> ->]. simpl.
    rewrite walk_varBinds_take by lia.
    rewrite take_ge by lia.
    replace (_ >=? max_results)%Z with false by lia.
    rewrite IH by (done || lia).
    rewrite fmap_app, <- app_assoc, length_app. f_equal. lia.
  - done.
Qed.

(** When a clean stream holds enough bindings to reach the cap, the walk
    ends inside it: what follows is not looked at. *)
Lemma walk_responses_clean_cap s tail results count max_results :
  clean s = true →
  (count < max_results)%Z →
  (max_results ≤ count + Z.of_nat (List.length (bindings s)))%Z →
  walk_responses (followed_by s tail) results count max_results =
  mret (inr (results ++ (entry_of <$> take (Z.to_nat (max_results - count)) (bindings s)),
             max_results)).
Proof.
  revert results count. induction s as [|r rest IH|e]; intros results count; simpl.
  - intros _ ??. lia.
  - intros [Hr Hs]%andb_true_iff Hlt Hge. rewrite length_app in Hge.
    apply clean_reply_inv in Hr as [-> ->]. simpl.
    rewrite walk_varBinds_take by lia. rewrite length_take.
    destruct (decide (Z.to_nat (max_results - count) ≤ List.length (varBinds r))%nat)
      as [Hle|Hgt].
    + rewrite (proj2 (Z.geb_le _ _)) by lia.
      rewrite take_app_le by done. do 3 f_equal. lia.
    + rewrite Z.geb_leb, (proj2 (Z.leb_gt _ _)) by lia.
      rewrite IH by (done || lia).
      rewrite take_ge by lia. rewrite take_app_ge by lia.
      rewrite fmap_app, <- app_assoc. do 7 f_equal. lia.
  - done.
Qed.

Lemma followed_by_Exhausted s : clean s = true → followed_by s Exhausted = s.
Proof.
  induction s as [|r rest IH|e]; simpl; [done| |done].
  intros [_ Hs]%andb_true_iff. by rewrite IH.
Qed.

(** X9.  For an identifier that fails validation, the walk returns the
    failure "Invalid OID format" and hands nothing to the stack, whatever
    the manager, the stack and the cap. *)
Theorem walk_snmp_tree_invalid_oid (self : SNMPManager) (stack : Stack)
    (oid : string) (max_results : Z) :
  validate_oid oid = false →
  walk_snmp_tree self stack oid max_results =
  Run (Returned (failure "Invalid OID format")) [].
Proof. intros Hv. by rewrite walk_snmp_tree_eq, Hv. Qed.

Lemma walk_snmp_tree_invalid_oid_witness :
  walk_snmp_tree Sample.manager (Sample.answering Sample.five) "1.3.6.1." 10 =
  Run (Returned (failure "Invalid OID format")) [].
Proof.
  apply (walk_snmp_tree_invalid_oid Sample.manager _ "1.3.6.1." 10). reflexivity.
Defined.

(** X10.  Against an agent whose replies are all clean, a walk with a cap of
    at least 1 succeeds: it returns the first [max_results] bindings (all of
    them if there are fewer) and their number. *)
Theorem walk_snmp_tree_clean (self : SNMPManager) (stack : Stack) (oid : string)
    (s : Stream) (max_results : Z) :
  validate_oid oid = true →
  stack (walk_request self oid) = Responds s →
  clean s = true →
  (1 ≤ max_results)%Z →
  outcome (walk_snmp_tree self stack oid max_results) =
  Returned {[ "success" := VBool true;
              "results" := VList (entry_of <$> take (Z.to_nat max_results) (bindings s));
              "count" := VInt (Z.of_nat (List.length (bindings s)) `min` max_results) ]}.
Proof.
  intros Hv Hstack Hs Hmax. unfold walk_request in Hstack.
  rewrite walk_snmp_tree_eq, Hv. simpl. rewrite Hstack.
  rewrite <- (followed_by_Exhausted s Hs) at 1.
  destruct (decide (Z.of_nat (List.length (bindings s)) < max_results)%Z) as [Hlt|Hge].
  - rewrite walk_responses_clean_below by (done || lia). simpl.
    rewrite take_ge by lia. repeat f_equal. lia.
  - rewrite walk_responses_clean_cap by (done || lia). simpl.
    rewrite Z.sub_0_r. repeat f_equal. lia.
Qed.

Lemma walk_snmp_tree_clean_witness :
  outcome (walk_snmp_tree Sample.manager (Sample.answering Fixture.two_by_two)
             "1.3.6.1.2.1.2.2.1.2" 3) =
  Returned {[ "success" := VBool true;
              "results" := VList (entry_of <$>
                 [Sample.binding "1"; Sample.binding "2"; Sample.binding "3"]);
              "count" := VInt 3 ]}.
Proof.
  apply (walk_snmp_tree_clean Sample.manager _ "1.3.6.1.2.1.2.2.1.2"
           Fixture.two_by_two 3); [reflexivity | reflexivity | reflexivity | lia].
Defined.

(** X11.  Once the cap is reached the walk stops reading: when the first
    replies are clean and hold at least [max_results] bindings, the result is
    the success made of the first [max_results] of them, whatever comes
    next, be it an error reply or an exception. *)
Theorem walk_snmp_tree_stops_at_cap (self : SNMPManager) (stack : Stack)
    (oid : string) (s tail : Stream) (max_results : Z) :
  validate_oid oid = true →
  stack (walk_request self oid) = Responds (followed_by s tail) →
  clean s = true →
  (1 ≤ max_results ≤ Z.of_nat (List.length (bindings s)))%Z →
  outcome (walk_snmp_tree self stack oid max_results) =
  Returned {[ "success" := VBool true;
              "results" := VList (entry_of <$> take (Z.to_nat max_results) (bindings s));
              "count" := VInt max_results ]}.
Proof.
  intros Hv Hstack Hs Hmax. unfold walk_request in Hstack.
  rewrite walk_snmp_tree_eq, Hv. simpl. rewrite Hstack.
  rewrite walk_responses_clean_cap by (done || lia). simpl.
  by rewrite Z.sub_0_r.
Qed.

Lemma walk_snmp_tree_stops_at_cap_witness :
  outcome (walk_snmp_tree Sample.manager
             (Sample.answering
                (followed_by Fixture.two_by_two (Raise Fixture.attribute_error)))
             "1.3.6.1.2.1.2.2.1.2" 3) =
  Returned {[ "success" := VBool true;
              "results" := VList (entry_of <$>
                 [Sample.binding "1"; Sample.binding "2"; Sample.binding "3"]);
              "count" := VInt 3 ]}.
Proof.
  apply (walk_snmp_tree_stops_at_cap Sample.manager _ "1.3.6.1.2.1.2.2.1.2"
           Fixture.two_by_two (Raise Fixture.attribute_error) 3);
    [reflexivity | reflexivity | reflexivity | simpl; lia].
Defined.

(** X12.  An error before the cap costs the walk what it has collected: when
    clean replies with fewer than [max_results] bindings are followed by a
    reply with an error indication, the result is the failure that quotes the
    indication, and none of the bindings. *)
Theorem walk_snmp_tree_error_discards (self : SNMPManager) (stack : Stack)
    (oid : string) (s : Stream) (r : Response) (tail : Stream)
    (indication : string) (max_results : Z) :
  validate_oid oid = true →
  stack (walk_request self oid) = Responds (followed_by s (Yield r tail)) →
  clean s = true →
  (Z.of_nat (List.length (bindings s)) < max_results)%Z →
  errorIndication r = Some indication →
  outcome (walk_snmp_tree self stack oid max_results) =
  Returned (failure ("SNMP surging: " +:+ indication +:+
    ". Check if the target device is reachable and SNMP is enabled.")).
Proof.
  intros Hv Hstack Hs Hmax Hr. unfold walk_request in Hstack.
  rewrite walk_snmp_tree_eq, Hv. simpl. rewrite Hstack.
  rewrite walk_responses_clean_below by (done || lia). simpl.
  by rewrite Hr.
Qed.

Lemma walk_snmp_tree_error_discards_witness :
  outcome (walk_snmp_tree Sample.manager
             (Sample.answering
                (followed_by Fixture.two_by_two (Yield Fixture.unreachable Exhausted)))
             "1.3.6.1.2.1.2.2.1.2" 10) =
  Returned (failure
    "SNMP surging: No SNMP response received before timeout. Check if the target device is reachable and SNMP is enabled.").
Proof.
  apply (walk_snmp_tree_error_discards Sample.manager _ "1.3.6.1.2.1.2.2.1.2"
           Fixture.two_by_two Fixture.unreachable Exhausted
           "No SNMP response received before timeout" 10);
    [reflexivity | reflexivity | reflexivity | simpl; lia | reflexivity].
Defined.

(** X13.  With a cap of zero or less the walk reads one reply and no more:
    if that reply is clean the result is a success holding its first binding
    (count 1), or nothing (count 0) when it has none. *)
Theorem walk_snmp_tree_nonpositive_cap (self : SNMPManager) (stack : Stack)
    (oid : string) (r : Response) (rest : Stream) (max_results : Z) :
  validate_oid oid = true →
  stack (walk_request self oid) = Responds (Yield r rest) →
  clean_reply r = true →
  (max_results ≤ 0)%Z →
  outcome (walk_snmp_tree self stack oid max_results) =
  Returned {[ "success" := VBool true;
              "results" := VList (entry_of <$> take 1 (varBinds r));
              "count" := VInt (Z.of_nat (List.length (take 1 (varBinds r)))) ]}.
Proof.
  intros Hv Hstack Hr Hmax. unfold walk_request in Hstack.
  rewrite walk_snmp_tree_eq, Hv. simpl. rewrite Hstack. simpl.
  apply clean_reply_inv in Hr as [-> ->]. simpl.
  destruct (varBinds r) as [|vb vbs].
  - simpl. by replace (0 >=? max_results)%Z with true by lia.
  - rewrite walk_varBinds_nonpositive_cap by done.
    by replace (1 >=? max_results)%Z with true by lia.
Qed.

Lemma walk_snmp_tree_nonpositive_cap_witness :
  outcome (walk_snmp_tree Sample.manager (Sample.answering Fixture.two_by_two)
             "1.3.6.1.2.1.2.2.1.2" (-5)) =
  Returned {[ "success" := VBool true;
              "results" := VList [entry_of (Sample.binding "1")];
              "count" := VInt 1 ]}.
Proof.
  apply (walk_snmp_tree_nonpositive_cap Sample.manager _ "1.3.6.1.2.1.2.2.1.2"
           (Sample.ok [Sample.binding "1"; Sample.binding "2"])
           (Yield (Sample.ok [Sample.binding "3"; Sample.binding "4"]) Exhausted) (-5));
    [reflexivity | reflexivity | reflexivity | lia].
Defined.

End Walk.

(** ** The command handlers *)

Section Handlers.
Import Spec.

Lemma wf_world_update w bot host community port :
  wf_world (update_snmp_config w bot host community port).
Proof.
  intros bot' [= <-]. simpl. rewrite lookup_app_r, Nat.sub_diag by done. eauto.
Qed.

(** X14.  In [snmp_config] the messages never decide the state: whatever
    [reply_text] does, the world afterwards is the one the command's
    arguments, the parse of the port and the presence of the bot determine,
    with every earlier manager object untouched; at most one message is
    sent and no request is made; and when the message the command calls for
    is sent, it is the only one and the handler returns. *)
Theorem snmp_config_state_before_reply (w : World) (chat : Handler.Chat Reply)
    (args : list string) :
  (Handler.snmp_config w chat args).1 = (snmp_config w args).1 ∧
  preserves_objects w (Handler.snmp_config w chat args).1 ∧
  (List.length (Handler.sent (Handler.snmp_config w chat args).2) ≤ 1)%nat ∧
  Handler.asked (Handler.snmp_config w chat args).2 = [] ∧
  (∀ r, (snmp_config w args).2 = [r] → chat r = None →
        (Handler.snmp_config w chat args).2 = Handler.Did (Full.Returns ()) [r] []).
Proof.
  assert (preserves_objects w w) as Hframe by (by intros ??).
  assert (∀ r : Reply,
    (List.length (Handler.sent (Handler.reply_text chat r)) ≤ 1)%nat ∧
    Handler.asked (Handler.reply_text chat r) = []) as Hone.
  { intros r. unfold Handler.reply_text. destruct (chat r); simpl; split; (done || lia). }
  assert (∀ r : Reply,
    let run := Handler.try_except (Handler.reply_text chat r)
                 (λ e, match exn_class e with
                       | ValueError => Some (Handler.reply_text chat ReplyInvalidPort)
                       | _ => Some (Handler.reply_text chat ReplyConfigError)
                       end) in
    (List.length (Handler.sent run) ≤ 1)%nat ∧ Handler.asked run = [] ∧
    (chat r = None → run = Handler.Did (Full.Returns ()) [r] [])) as Htry.
  { intros r run. subst run. unfold Handler.try_except.
    destruct (chat r) as [[e|b]|] eqn:Hr.
    - assert (Handler.reply_text chat r =
              Handler.Did (Full.Raises (Full.Exception e)) [] []) as ->
        by (unfold Handler.reply_text; by rewrite Hr).
      simpl. destruct (exn_class e); simpl;
        (split_and!; [apply Hone | apply Hone | done]).
    - assert (Handler.reply_text chat r =
              Handler.Did (Full.Raises (Full.BaseException b)) [] []) as ->
        by (unfold Handler.reply_text; by rewrite Hr).
      simpl. split_and!; (done || lia).
    - assert (Handler.reply_text chat r = Handler.Did (Full.Returns ()) [r] []) as ->
        by (unfold Handler.reply_text; by rewrite Hr).
      simpl. split_and!; (done || lia). }
  unfold Handler.snmp_config, snmp_config.
  destruct args as [|host rest]; simpl.
  { destruct (Htry ReplyConfigUsage) as (? & ? & Hd).
    split_and!; try done. by intros r [= <-]. }
  destruct (match rest !! 1%nat with
            | Some p => py_int p
            | None => Returned 161%Z
            end) as [port|e]; simpl.
  - destruct (bot_instance w) as [bot|]; simpl.
    + destruct (Htry (ReplyConfigUpdated host (default "public" (rest !! 0%nat)) port))
        as (? & ? & Hd).
      split_and!; try done; [apply update_snmp_config_preserves|by intros r [= <-]].
    + destruct (Htry ReplyBotNotFound) as (? & ? & Hd).
      split_and!; try done. by intros r [= <-].
  - unfold Handler.try_except. simpl.
    destruct (exn_class e); simpl;
      (split_and!; [done|done|apply Hone|apply Hone|];
       intros r [= <-] Hr; unfold Handler.reply_text; by rewrite Hr).
Qed.

(** X30.  In [snmp_config] the update comes before the message: when
    sending "configuration updated" raises an exception other than a
    [ValueError], the new endpoint is installed all the same and the handler
    answers, if it can, with "an error occurred while updating
    configuration". *)
Theorem snmp_config_updated_reply_fails (w : World) (bot : TelegramBot)
    (chat : Handler.Chat Reply) (host : string) (rest : list string) (port : Z)
    (e : Exn) :
  bot_instance w = Some bot →
  match rest !! 1%nat with Some p => py_int p | None => Returned 161%Z end
    = Returned port →
  chat (ReplyConfigUpdated host (default "public" (rest !! 0%nat)) port) =
    Some (Full.Exception e) →
  exn_class e ≠ ValueError →
  Handler.snmp_config w chat (host :: rest) =
  (update_snmp_config w bot host (default "public" (rest !! 0%nat)) port,
   match chat ReplyConfigError with
   | None => Handler.Did (Full.Returns ()) [ReplyConfigError] []
   | Some t => Handler.Did (Full.Raises t) [] []
   end).
Proof.
  intros Hbot Hport Hchat He. unfold Handler.snmp_config. simpl.
  rewrite Hport, Hbot. f_equal.
  unfold Handler.try_except.
  assert (Handler.reply_text chat
            (ReplyConfigUpdated host (default "public" (rest !! 0%nat)) port) =
          Handler.Did (Full.Raises (Full.Exception e)) [] []) as ->
    by (unfold Handler.reply_text; by rewrite Hchat).
  simpl. unfold Handler.reply_text.
  destruct (exn_class e); try done; by destruct (chat ReplyConfigError).
Qed.

Lemma snmp_config_updated_reply_fails_witness :
  Handler.snmp_config Sample.world
    (λ r, match r with
          | ReplyConfigUpdated _ _ _ =>
              Some (Full.Exception {| exn_class := OtherException; exn_str := "Timed out" |})
          | _ => None
          end)
    ["10.0.0.1"; "private"] =
  (update_snmp_config Sample.world
     {| token := "t"; snmp_manager := 0; is_running := true |} "10.0.0.1" "private" 161,
   Handler.Did (Full.Returns ()) [ReplyConfigError] []).
Proof.
  apply (snmp_config_updated_reply_fails Sample.world
           {| token := "t"; snmp_manager := 0; is_running := true |}
           (λ r, match r with
                 | ReplyConfigUpdated _ _ _ =>
                     Some (Full.Exception
                             {| exn_class := OtherException; exn_str := "Timed out" |})
                 | _ => None
                 end)
           "10.0.0.1" ["private"] 161
           {| exn_class := OtherException; exn_str := "Timed out" |});
    [reflexivity | reflexivity | reflexivity | done].
Defined.

(** X15.  [snmp_config] keeps the world well formed: afterwards the bot
    still refers to a manager object. *)
Theorem snmp_config_wf_world (w : World) (args : list string) :
  wf_world w → wf_world (snmp_config w args).1.
Proof.
  intros Hwf. unfold snmp_config. destruct args as [|host rest]; [done|].
  destruct (match (host :: rest) !! 2%nat with
            | Some p => py_int p
            | None => Returned 161%Z
            end) as [port|e].
  - destruct (bot_instance w) as [bot|] eqn:Hbot; [|done].
    apply wf_world_update.
  - by destruct (exn_class e).
Qed.

Lemma snmp_config_wf_world_witness :
  wf_world (snmp_config Sample.world ["10.0.0.1"; "private"; "1161"]).1.
Proof.
  apply (snmp_config_wf_world Sample.world ["10.0.0.1"; "private"; "1161"]).
  intros bot [= <-]. simpl. by eexists.
Defined.

(** X16.  The last reconfiguration wins and nothing is merged: after two
    reconfigurations that go through, the bot refers to a manager made of
    the second one's values only, and each of the two has added one manager
    object after those that were there. *)
Theorem snmp_config_last_wins (w : World) (bot : TelegramBot)
    (h1 c1 p1 h2 c2 p2 : string) (r1 r2 : list string) (z1 z2 : Z) :
  bot_instance w = Some bot →
  py_int p1 = Returned z1 →
  py_int p2 = Returned z2 →
  let w1 := (snmp_config w (h1 :: c1 :: p1 :: r1)).1 in
  let w2 := (snmp_config w1 (h2 :: c2 :: p2 :: r2)).1 in
  current_manager w2 =
    Some {| target_host := h2; community := c2; port := z2 |} ∧
  heap w2 = heap w ++ [{| target_host := h1; community := c1; port := z1 |};
                       {| target_host := h2; community := c2; port := z2 |}].
Proof.
  intros Hbot Hp1 Hp2. unfold snmp_config. simpl.
  rewrite Hp1, Hbot. simpl. rewrite Hp2. simpl. split.
  - apply update_snmp_config_current.
  - by rewrite <- app_assoc.
Qed.

Lemma snmp_config_last_wins_witness :
  let w1 := (snmp_config Sample.world ["10.0.0.1"; "private"; "1161"]).1 in
  let w2 := (snmp_config w1 ["10.0.0.2"; "public"; "161"]).1 in
  current_manager w2 =
    Some {| target_host := "10.0.0.2"; community := "public"; port := 161 |} ∧
  heap w2 = heap Sample.world ++
            [{| target_host := "10.0.0.1"; community := "private"; port := 1161 |};
             {| target_host := "10.0.0.2"; community := "public"; port := 161 |}].
Proof.
  apply (snmp_config_last_wins Sample.world
           {| token := "t"; snmp_manager := 0; is_running := true |}
           "10.0.0.1" "private" "1161" "10.0.0.2" "public" "161" [] [] 1161 161);
    reflexivity.
Defined.

(** X17.  What [/snmpconfig] installs is what [/snmpstatus] shows: after a
    reconfiguration that goes through, the status reply carries the host
    given, the community given or "public", and the port given or 161. *)
Theorem snmp_status_after_snmp_config (w : World) (bot : TelegramBot)
    (host : string) (rest : list string) (port : Z) :
  bot_instance w = Some bot →
  match rest !! 1%nat with Some p => py_int p | None => Returned 161%Z end
    = Returned port →
  snmp_status (snmp_config w (host :: rest)).1 =
  [StatusShown host (default "public" (rest !! 0%nat)) port].
Proof.
  intros Hbot Hport. unfold snmp_config. simpl. rewrite Hport, Hbot.
  unfold snmp_status. simpl. by rewrite lookup_app_r, Nat.sub_diag.
Qed.

Lemma snmp_status_after_snmp_config_witness :
  snmp_status (snmp_config Sample.world ["10.0.0.1"; "private"]).1 =
  [StatusShown "10.0.0.1" "private" 161].
Proof.
  apply (snmp_status_after_snmp_config Sample.world
           {| token := "t"; snmp_manager := 0; is_running := true |}
           "10.0.0.1" ["private"] 161); reflexivity.
Defined.

(** The bot stays registered through reconfigurations, and afterwards refers
    to the manager made by the last of them. *)
Lemma reconfigured_current w bot self during :
  bot_instance w = Some bot →
  heap w !! snmp_manager bot = Some self →
  is_Some (bot_instance (reconfigured w during)) ∧
  current_manager (reconfigured w during) =
  Some (match last during with
        | Some c => {| target_host := c.1.1; community := c.1.2; port := c.2 |}
        | None => self
        end).
Proof.
  intros Hbot Hself. induction during as [|c during [[bot' Hbot'] IH]] using rev_ind.
  - simpl. split; [by eexists|]. unfold current_manager. by rewrite Hbot.
  - unfold reconfigured in *. rewrite foldl_snoc, last_snoc, Hbot'.
    split; [by eexists|]. apply update_snmp_config_current.
Qed.

Lemma manager_of_current w m : current_manager w = Some m → manager_of w = Returned m.
Proof. unfold manager_of. by intros ->. Qed.

(** X18.  With a bot registered and the "Querying" message sent, when the
    query returns, [/snmp] builds its reply from the engine's result without
    loss: the failure with the engine's error text, or the success with the
    engine's identifier, value and type, and as target the host of the
    manager the bot refers to once the query is over, which is the one that
    ran the query unless a reconfiguration went through meanwhile.  If [reply_text] sends
    that reply, it is the last message and the handler returns; if it raises
    an exception, the generic error reply is tried in its place, and what
    that raises leaves the handler; if it raises what derives from
    [BaseException] only, that leaves the handler at once. *)
Theorem snmp_get_relays (w : World) (bot : TelegramBot) (self : SNMPManager)
    (during : list (string * string * Z)) (stack : Full.Stack)
    (chat : Handler.Chat GetReply) (oid : string) (rest : list string) (d : dict) :
  bot_instance w = Some bot →
  heap w !! snmp_manager bot = Some self →
  Full.outcome (Full.get_snmp_value self stack oid) = Full.Returns d →
  chat GetQuerying = None →
  ∃ reply,
    ((∃ msg, d = failure msg ∧ reply = GetFailed (VStr msg)) ∨
     (∃ o v t,
        d = {[ "success" := VBool true; "oid" := VStr o;
               "value" := VStr v; "type" := VStr t ]} ∧
        reply = GetSuccessful (VStr o) (VStr v) (VStr t)
                  (match last during with
                   | Some c => c.1.1
                   | None => target_host self
                   end))) ∧
    snmp_get w during stack chat (oid :: rest) =
      let asked := Full.requests (Full.get_snmp_value self stack oid) in
      match chat reply with
      | None => Handler.Did (Full.Returns ()) [GetQuerying; reply] asked
      | Some (Full.BaseException b) =>
          Handler.Did (Full.Raises (Full.BaseException b)) [GetQuerying] asked
      | Some (Full.Exception _) =>
          match chat GetError with
          | None => Handler.Did (Full.Returns ()) [GetQuerying; GetError] asked
          | Some t => Handler.Did (Full.Raises t) [GetQuerying] asked
          end
      end.
Proof.
  intros Hbot Hself Hd Hq.
  destruct (reconfigured_current w bot self during Hbot Hself) as [_ Hlater].
  assert (manager_of w = Returned self) as Hnow.
  { apply manager_of_current. unfold current_manager. by rewrite Hbot. }
  apply manager_of_current in Hlater.
  set (target := match last during with
                 | Some c => c.1.1
                 | None => target_host self
                 end).
  assert ((self' ← manager_of (reconfigured w during); mret (target_host self'))
          = Returned target) as Htarget.
  { rewrite Hlater. subst target. simpl. by destruct (last during). }
  assert (∀ reply,
    present_get d (Returned target) = Returned reply →
    snmp_get w during stack chat (oid :: rest) =
      let asked := Full.requests (Full.get_snmp_value self stack oid) in
      match chat reply with
      | None => Handler.Did (Full.Returns ()) [GetQuerying; reply] asked
      | Some (Full.BaseException b) =>
          Handler.Did (Full.Raises (Full.BaseException b)) [GetQuerying] asked
      | Some (Full.Exception _) =>
          match chat GetError with
          | None => Handler.Did (Full.Returns ()) [GetQuerying; GetError] asked
          | Some t => Handler.Did (Full.Raises t) [GetQuerying] asked
          end
      end) as Hrun.
  { intros reply Hreply. unfold snmp_get. rewrite Hbot, Hnow, Htarget.
    unfold Handler.try_except, mbind, Handler.H_bind, Handler.reply_text,
      Handler.await, Handler.evaluate.
    rewrite Hq. simpl. rewrite Hd. simpl. rewrite Hreply. simpl.
    destruct (chat reply) as [[e|b]|]; simpl; rewrite ?app_nil_r; try done.
    destruct (chat GetError); simpl; by rewrite ?app_nil_r. }
  apply Full_get_snmp_value_shape in Hd as Hshape.
  destruct Hshape as [[msg ->] | (o & v & t & ->)].
  - exists (GetFailed (VStr msg)). split; [left; eauto|]. by apply Hrun.
  - exists (GetSuccessful (VStr o) (VStr v) (VStr t) target).
    split; [right; eauto 6|]. by apply Hrun.
Qed.

Lemma snmp_get_relays_witness :
  ∃ reply,
    ((∃ msg, ({[ "success" := VBool true; "oid" := VStr "1.3.6.1.2.1.2.2.1.2.1";
                 "value" := VStr "eth1"; "type" := VStr "OctetString" ]} : dict) =
             failure msg ∧ reply = GetFailed (VStr msg)) ∨
     (∃ o v t,
        ({[ "success" := VBool true; "oid" := VStr "1.3.6.1.2.1.2.2.1.2.1";
            "value" := VStr "eth1"; "type" := VStr "OctetString" ]} : dict) =
        {[ "success" := VBool true; "oid" := VStr o;
           "value" := VStr v; "type" := VStr t ]} ∧
        reply = GetSuccessful (VStr o) (VStr v) (VStr t) "10.0.0.2")) ∧
    snmp_get Sample.world [("10.0.0.2", "public", 161%Z)]
      (full_stack (Sample.answering Sample.one)) (λ _, None) ["1.3.6.1"] =
      let asked :=
        Full.requests (Full.get_snmp_value Sample.manager
                         (full_stack (Sample.answering Sample.one)) "1.3.6.1") in
      Handler.Did (Full.Returns ()) [GetQuerying; reply] asked.
Proof.
  exact (snmp_get_relays Sample.world
           {| token := "t"; snmp_manager := 0; is_running := true |}
           Sample.manager [("10.0.0.2", "public", 161%Z)]
           (full_stack (Sample.answering Sample.one)) (λ _, None) "1.3.6.1" []
           {[ "success" := VBool true; "oid" := VStr "1.3.6.1.2.1.2.2.1.2.1";
              "value" := VStr "eth1"; "type" := VStr "OctetString" ]}
           eq_refl eq_refl eq_refl eq_refl).
Defined.



End Handlers.

(** ** Configuration and start-up *)

Section Startup.

Lemma admin_ids_of_Returned pieces zs :
  admin_ids_of pieces = Returned zs ↔
  Forall2 (λ p z, py_int (PyStr.strip p) = Returned z) pieces zs.
Proof.
  revert zs. induction pieces as [|p pieces IH]; intros zs; simpl.
  - split; [intros [= <-]; constructor | by intros ->%Forall2_nil_inv_l].
  - unfold mbind, Outcome_bind at 1.
    destruct (py_int (PyStr.strip p)) as [z|e] eqn:Hp.
    + unfold mbind, Outcome_bind.
      destruct (admin_ids_of pieces) as [zs'|e] eqn:Hps; simpl.
      * split.
        -- intros [= <-]. constructor; [done|]. by apply IH.
        -- intros (z' & zs'' & Hz & Hzs & ->)%Forall2_cons_inv_l.
           apply IH in Hzs. unfold mret, Outcome_ret. congruence.
      * split; [done|].
        intros (z' & zs'' & Hz & Hzs & ->)%Forall2_cons_inv_l.
        by apply IH in Hzs.
    + split; [done|].
      intros (z' & zs'' & Hz & Hzs & ->)%Forall2_cons_inv_l. congruence.
Qed.

Lemma admin_ids_of_Raised pieces p :
  p ∈ pieces → (∀ z, py_int (PyStr.strip p) ≠ Returned z) →
  ∃ e, admin_ids_of pieces = Raised e ∧ exn_class e = ValueError.
Proof.
  intros Hin Hp. induction pieces as [|q pieces IH]; [by apply elem_of_nil in Hin|].
  simpl. unfold mbind, Outcome_bind at 1.
  destruct (py_int (PyStr.strip q)) as [z|e] eqn:Hq.
  - apply elem_of_cons in Hin as [->|Hin]; [by destruct (Hp z)|].
    destruct (IH Hin) as (e & -> & He). simpl. eauto.
  - exists e. split; [done|]. by apply py_int_raises_ValueError in Hq.
Qed.

Lemma length_split_chars sep l :
  List.length (PyStr.split_chars sep l) = S (count_occ ascii_dec l sep).
Proof.
  induction l as [|c l IH]; simpl; [done|].
  destruct (Ascii.eqb_spec c sep) as [->|Hc].
  - destruct (ascii_dec sep sep); [|done]. simpl. by rewrite IH.
  - destruct (ascii_dec c sep); [done|].
    destruct (PyStr.split_chars sep l); simpl in *; [done|lia].
Qed.

(** X20.  When ADMIN_IDS is set and not empty, the ids that
    [_parse_admin_ids] returns are, in the order written, the integers of
    the comma-separated pieces with the white space around them removed:
    one id per piece, that is one more than there are commas. *)
Theorem parse_admin_ids_pieces (env : Env) (s : string) (zs : list Z) :
  env !! "ADMIN_IDS" = Some s →
  s ≠ "" →
  _parse_admin_ids env = Returned zs →
  Forall2 (λ p z, py_int (PyStr.strip p) = Returned z) (PyStr.split "," s) zs ∧
  List.length zs = S (count_occ ascii_dec (list_ascii_of_string s) ","%char).
Proof.
  intros Hs Hne. unfold _parse_admin_ids. rewrite Hs. simpl.
  destruct (String.eqb_spec s ""); [done|].
  intros H%admin_ids_of_Returned. split; [done|].
  apply Forall2_length in H as <-.
  unfold PyStr.split. by rewrite length_fmap, length_split_chars.
Qed.

Lemma parse_admin_ids_pieces_witness :
  Forall2 (λ p z, py_int (PyStr.strip p) = Returned z)
    (PyStr.split "," "12, 34 ,56") [12; 34; 56]%Z ∧
  List.length [12; 34; 56]%Z =
    S (count_occ ascii_dec (list_ascii_of_string "12, 34 ,56") ","%char).
Proof.
  apply (parse_admin_ids_pieces {[ "ADMIN_IDS" := "12, 34 ,56" ]} "12, 34 ,56"
           [12; 34; 56]%Z); [reflexivity | done | reflexivity].
Defined.

Lemma main_Config_Raised env e : Config_init env = Raised e → main env = Raised e.
Proof. unfold main. by intros ->. Qed.

(** X21.  A blank piece in ADMIN_IDS (a trailing comma, two commas in a
    row, a lone space) makes [_parse_admin_ids] raise [ValueError], and with
    it the whole start-up. *)
Theorem parse_admin_ids_blank_piece (env : Env) (s p : string) :
  env !! "ADMIN_IDS" = Some s →
  s ≠ "" →
  p ∈ PyStr.split "," s →
  PyStr.strip p = "" →
  ∃ e, _parse_admin_ids env = Raised e ∧ main env = Raised e ∧
       exn_class e = ValueError.
Proof.
  intros Hs Hne Hp Hblank.
  destruct (admin_ids_of_Raised (PyStr.split "," s) p Hp) as (e & He & Hc).
  { intros z. by rewrite Hblank. }
  exists e. assert (_parse_admin_ids env = Raised e) as Hparse.
  { unfold _parse_admin_ids. rewrite Hs. simpl. by destruct (String.eqb_spec s ""). }
  split_and!; [done| |done].
  apply main_Config_Raised. unfold Config_init. by rewrite Hparse.
Qed.

Lemma parse_admin_ids_blank_piece_witness :
  ∃ e, _parse_admin_ids {[ "ADMIN_IDS" := "12,34," ]} = Raised e ∧
       main {[ "ADMIN_IDS" := "12,34," ]} = Raised e ∧
       exn_class e = ValueError.
Proof.
  apply (parse_admin_ids_blank_piece {[ "ADMIN_IDS" := "12,34," ]} "12,34," "").
  - reflexivity.
  - done.
  - unfold PyStr.split. simpl. set_solver.
  - reflexivity.
Defined.

Lemma getenv_or_nonempty env k d : d ≠ "" → getenv_or env k d ≠ "".
Proof.
  intros Hd. unfold getenv_or. destruct (env !! k) as [v|]; [|done].
  by destruct (String.eqb_spec v "").
Qed.

(** X22.  The token check of [main] never fires: an unset or empty
    TELEGRAM_BOT_TOKEN is replaced by the placeholder, so [main] either
    raises or goes on to build the bot. *)
Theorem main_token_check_dead (env : Env) : main env ≠ Returned None.
Proof.
  unfold main. destruct (Config_init env) as [c|e] eqn:Hc; [|done]. simpl.
  assert (TOKEN c ≠ "") as Htok.
  { unfold Config_init in Hc.
    destruct (_parse_admin_ids env); [|done]. simpl in Hc.
    destruct (py_int _); [|done]. simpl in Hc. injection Hc as <-. simpl.
    by apply getenv_or_nonempty. }
  by destruct (String.eqb_spec (TOKEN c) "").
Qed.

(** X23.  Start-up installs the endpoint of the environment: when ADMIN_IDS
    and SNMP_PORT parse, [main] builds a well-formed world of two manager
    objects, the default one of the constructor and the one the bot refers
    to, whose status shows SNMP_HOST, SNMP_COMMUNITY and SNMP_PORT, or
    192.168.137.130, "public" and 161 where they are not set.  The port is
    taken as it is, in 1..65535 or not. *)
Theorem main_installs_environment (env : Env) (ids : list Z) (port : Z) :
  _parse_admin_ids env = Returned ids →
  py_int (default "161" (env !! "SNMP_PORT")) = Returned port →
  ∃ w, main env = Returned (Some w) ∧
       snmp_status w =
         [StatusShown (default "192.168.137.130" (env !! "SNMP_HOST"))
                      (default "public" (env !! "SNMP_COMMUNITY")) port] ∧
       heap w = [SNMPManager_init None None None;
                 {| target_host := default "192.168.137.130" (env !! "SNMP_HOST");
                    community := default "public" (env !! "SNMP_COMMUNITY");
                    port := port |}] ∧
       wf_world w.
Proof.
  intros Hids Hport. unfold main, Config_init. rewrite Hids. simpl.
  rewrite Hport. simpl.
  pose proof (getenv_or_nonempty env "TELEGRAM_BOT_TOKEN" "YOUR_BOT_TOKEN_HERE") as Htok.
  destruct (String.eqb_spec (getenv_or env "TELEGRAM_BOT_TOKEN" "YOUR_BOT_TOKEN_HERE") "")
    as [Heq|_]; [by destruct Htok|].
  eexists. split; [done|]. split_and!; [done|done|].
  intros bot [= <-]. simpl. by eexists.
Qed.

Lemma main_installs_environment_witness :
  ∃ w, main ({[ "SNMP_HOST" := "10.0.0.9"; "SNMP_PORT" := "70000" ]} : Env) =
         Returned (Some w) ∧
       snmp_status w = [StatusShown "10.0.0.9" "public" 70000] ∧
       heap w = [SNMPManager_init None None None;
                 {| target_host := "10.0.0.9"; community := "public"; port := 70000 |}] ∧
       wf_world w.
Proof.
  exact (main_installs_environment
           {[ "SNMP_HOST" := "10.0.0.9"; "SNMP_PORT" := "70000" ]} [] 70000
           eq_refl eq_refl).
Defined.

(** X24.  A SNMP_PORT that [int()] does not parse stops the start-up with
    [ValueError]: there is no handler for it, unlike for the port of
    [/snmpconfig]. *)
Theorem main_non_numeric_port (env : Env) (p : string) (e : Exn) :
  env !! "SNMP_PORT" = Some p →
  py_int p = Raised e →
  ∃ e', main env = Raised e' ∧ exn_class e' = ValueError.
Proof.
  intros Hp He. unfold main, Config_init, _parse_admin_ids.
  destruct (String.eqb _ ""); simpl.
  - rewrite Hp. simpl. rewrite He. simpl. exists e. split; [done|].
    by apply py_int_raises_ValueError in He.
  - destruct (admin_ids_of _) as [ids|e'] eqn:Hids; simpl.
    + rewrite Hp. simpl. rewrite He. simpl. exists e. split; [done|].
      by apply py_int_raises_ValueError in He.
    + exists e'. split; [done|].
      clear -Hids. revert e' Hids.
      induction (PyStr.split "," (default "" (env !! "ADMIN_IDS"))) as [|q qs IH];
        intros e' Hids; [done|].
      simpl in Hids. unfold mbind, Outcome_bind at 1 in Hids.
      destruct (py_int (PyStr.strip q)) as [z|e''] eqn:Hq.
      * unfold mbind, Outcome_bind in Hids.
        destruct (admin_ids_of qs) as [zs|e'''] eqn:Hqs; [done|].
        injection Hids as <-. by apply IH.
      * injection Hids as <-. by apply py_int_raises_ValueError in Hq.
Qed.

Lemma main_non_numeric_port_witness :
  ∃ e', main ({[ "SNMP_PORT" := "snmp" ]} : Env) = Raised e' ∧
        exn_class e' = ValueError.
Proof.
  apply (main_non_numeric_port {[ "SNMP_PORT" := "snmp" ]} "snmp"
           {| exn_class := ValueError;
              exn_str := "invalid literal for int() with base 10" |});
    reflexivity.
Defined.

End Startup.

(** ** Registration of commands *)

Section RegistrationFacts.
Import Registration.
Context {Callable : Type}.

(** [register_command] records the handler under the command in
    [commands], leaving every other command as it was, and adds one
    [CommandHandler] at the end of the application's handlers; the
    application is built, with its text handler and its error handler, only
    if there was none. *)
Lemma register_command_effect (command : string) (handler : Callable)
    (self : Registry (Callable := Callable)) :
  commands (register_command command handler self) !! command = Some handler ∧
  delete command (commands (register_command command handler self)) =
    delete command (commands self) ∧
  application (register_command command handler self) =
    Some {| handlers :=
              match application self with
              | Some app => handlers app
              | None => [OnText]
              end ++ [OnCommand command handler];
            error_handlers :=
              match application self with
              | Some app => error_handlers app
              | None => 1
              end |}.
Proof.
  unfold register_command. destruct (application self) as [app|] eqn:Happ; simpl.
  - rewrite Happ. simpl. split_and!; [apply lookup_insert_eq|apply delete_insert_eq|done].
  - split_and!; [apply lookup_insert_eq|apply delete_insert_eq|done].
Qed.

Lemma register_all_snoc regs (reg : string * Callable) (self : Registry) :
  register_all (regs ++ [reg]) self =
  register_command reg.1 reg.2 (register_all regs self).
Proof. unfold register_all. by rewrite foldl_snoc. Qed.

(** X25.  After a series of registrations on a new bot, the application
    holds the text handler followed by one [CommandHandler] per
    registration, in order, and one error handler; [commands] maps each
    command to the handler of its last registration.  Without any
    registration there is no application. *)
Theorem register_all_fresh (regs : list (string * Callable)) :
  application (register_all regs fresh) =
    match regs with
    | [] => None
    | _ => Some {| handlers := OnText :: ((λ reg, OnCommand reg.1 reg.2) <$> regs);
                   error_handlers := 1 |}
    end ∧
  commands (register_all regs fresh) = list_to_map (reverse regs).
Proof.
  induction regs as [|reg regs [IHa IHc]] using rev_ind; [done|].
  rewrite register_all_snoc, reverse_snoc.
  destruct (register_command_effect reg.1 reg.2 (register_all regs fresh))
    as (_ & _ & Happ).
  split.
  - rewrite Happ, IHa, fmap_app. by destruct regs.
  - unfold register_command. simpl. rewrite <- IHc.
    by destruct (application (register_all regs fresh)).
Qed.

End RegistrationFacts.

(** ** Starting and stopping *)

Section LifecycleFacts.
Import Lifecycle.

Lemma perform_prefix lib cs : (perform lib cs).2 `prefix_of` cs.
Proof.
  induction cs as [|c cs IH]; simpl; [done|].
  destruct (lib c); simpl.
  - by apply prefix_cons, prefix_nil.
  - destruct (perform lib cs) as [r done_]. simpl in *. by apply prefix_cons.
Qed.


(** X27.  When [updater.stop()] raises, [stop_bot] marks the bot as not
    running, but [application.stop()] and [application.shutdown()] are never
    called: an exception is logged and [stop_bot] returns, and what derives
    from [BaseException] only goes on to the caller. *)
Theorem stop_bot_skips_shutdown (lib : Library) (self : Life) (t : Full.Thrown) :
  built self = true →
  running self = true →
  lib CallUpdaterStop = Some t →
  stop_bot lib self =
  {| ended := match t with
              | Full.Exception _ => Full.Returns ()
              | Full.BaseException b => Full.Raises (Full.BaseException b)
              end;
     after := {| built := true; running := false |};
     made := [CallUpdaterStop] |}.
Proof.
  intros Hb Hr He. unfold stop_bot. rewrite Hb, Hr. simpl. rewrite He.
  by destruct t.
Qed.

Lemma stop_bot_skips_shutdown_witness :
  stop_bot (λ c, match c with
                 | CallUpdaterStop => Some (Full.BaseException Full.CancelledError)
                 | _ => None
                 end)
           {| built := true; running := true |} =
  {| ended := Full.Raises (Full.BaseException Full.CancelledError);
     after := {| built := true; running := false |};
     made := [CallUpdaterStop] |}.
Proof.
  apply (stop_bot_skips_shutdown _ {| built := true; running := true |}
           (Full.BaseException Full.CancelledError)); reflexivity.
Defined.



(** X29.  When [initialize] raises on a bot that is not running,
    [start_bot] leaves it not running, so the [finally] clause of [run] makes
    no call at all: the application that was built is never shut down. *)
Theorem start_bot_initialize_fails (lib : Library) (self : Life) (t : Full.Thrown) :
  running self = false →
  (if built self then None else lib CallBuild) = None →
  lib CallInitialize = Some t →
  ended (start_bot lib self) = Full.Raises t ∧
  after (start_then_stop lib self) = {| built := true; running := false |} ∧
  made (start_then_stop lib self) =
    (if built self then [] else [CallBuild]) ++ [CallInitialize].
Proof.
  intros Hr Hb Hi. unfold start_then_stop, start_bot, stop_bot. simpl.
  destruct self as [[] r]; simpl in *; subst r; rewrite ?Hb, Hi; simpl; done.
Qed.

Lemma start_bot_initialize_fails_witness :
  let lib : Library :=
    λ c, match c with
         | CallInitialize => Some (Full.Exception Fixture.attribute_error)
         | _ => None
         end in
  let self := {| built := false; running := false |} in
  ended (start_bot lib self) = Full.Raises (Full.Exception Fixture.attribute_error) ∧
  after (start_then_stop lib self) = {| built := true; running := false |} ∧
  made (start_then_stop lib self) = [CallBuild] ++ [CallInitialize].
Proof.
  apply (start_bot_initialize_fails
           (λ c, match c with
                 | CallInitialize => Some (Full.Exception Fixture.attribute_error)
                 | _ => None
                 end)
           {| built := false; running := false |}
           (Full.Exception Fixture.attribute_error));
    reflexivity.
Defined.

End LifecycleFacts.
